(** * Reminder and digest scheduling of DCReminderBot (src/cogs/reminders.py)

    A shallow embedding of the offset calculator ([parse_offset_str],
    [default_offsets]), of the project creation and custom-reminder commands,
    of the reminder poll loop, of the daily digest loop and of the digest
    configuration command, over a model of the SQLite store of src/db.py.

    Python [str] values are modelled as Rocq strings of ASCII characters,
    Python [int] as [Z].  Builtins outside the repository (ZoneInfo, the
    datetime conversions, Discord delivery) are parameters of the loops. *)

From Stdlib Require Import ZArith Ascii String Lia.
From stdpp Require Import base gmap sets list strings sorting.

Open Scope Z_scope.

(* ------------------------------------------------------------------ *)
(** ** Results and errors *)

Inductive error :=
  | InvalidDuration (token : string)   (* ValueError of parse_offset_str *)
  | NotInServer                        (* guild_id is None *)
  | TooSoon                            (* due_utc <= now_utc + 60 *)
  | ProjectNotFound
  | NoValidReminder                    (* add-reminder: nothing inserted *)
  | InvalidTime                        (* strptime(time_hhmm, "%H:%M") fails *)
  | InvalidTimezone
  | StoreFailure.                      (* an exception raised by sqlite3 *)

Inductive result (A : Type) :=
  | Ok (a : A)
  | Err (e : error).
Arguments Ok {A} a.
Arguments Err {A} e.

(* ------------------------------------------------------------------ *)
(** ** Python string helpers on ASCII text *)

(** [str.isspace] on one ASCII character: \t \n \v \f \r, the separators
    \x1c-\x1f and the space. The regex class [\s] of a str pattern is the
    same set. *)
Definition is_ws (c : ascii) : bool :=
  let n := nat_of_ascii c in
  ((9 <=? n) && (n <=? 13))%nat || ((28 <=? n) && (n <=? 32))%nat.

Fixpoint lstrip (s : string) : string :=
  match s with
  | EmptyString => EmptyString
  | String c s' => if is_ws c then lstrip s' else s
  end.

(** [str.strip()] *)
Definition strip (s : string) : string :=
  String.rev (lstrip (String.rev (lstrip s))).

(** [str.split(sep)] with a one-character separator: always at least one
    part, empty parts kept. *)
Fixpoint split_on (sep : ascii) (s : string) : list string :=
  match s with
  | EmptyString => [EmptyString]
  | String c s' =>
      if Ascii.eqb c sep then EmptyString :: split_on sep s'
      else match split_on sep s' with
           | p :: ps => String c p :: ps
           | [] => [String c EmptyString]
           end
  end.

Definition is_digit (c : ascii) : bool :=
  let n := nat_of_ascii c in ((48 <=? n) && (n <=? 57))%nat.

Definition digit_val (c : ascii) : Z := Z.of_nat (nat_of_ascii c) - 48.

(** [str.lower()] on one ASCII character *)
Definition lower (c : ascii) : ascii :=
  let n := nat_of_ascii c in
  if ((65 <=? n) && (n <=? 90))%nat then ascii_of_nat (n + 32) else c.

(* ------------------------------------------------------------------ *)
(** ** DURATION_RE = ^\s*(\d+)\s*([smhdw])\s*$  (re.IGNORECASE) *)

Fixpoint take_digits (s : string) : string * string :=
  match s with
  | String c s' =>
      if is_digit c then let '(d, r) := take_digits s' in (String c d, r)
      else (EmptyString, s)
  | EmptyString => (EmptyString, EmptyString)
  end.

Fixpoint all_ws (s : string) : bool :=
  match s with
  | EmptyString => true
  | String c s' => is_ws c && all_ws s'
  end.

Definition is_unit (c : ascii) : bool :=
  match lower c with
  | "s"%char | "m"%char | "h"%char | "d"%char | "w"%char => true
  | _ => false
  end.

(** [DURATION_RE.match(p)]: the two groups, or [None].  The classes of the
    pattern are pairwise disjoint, so the greedy match is the only one.
    ([$] may also match before a final newline; [\s*] has consumed it.) *)
Definition duration_match (p : string) : option (string * ascii) :=
  let '(ds, r) := take_digits (lstrip p) in
  match ds with
  | EmptyString => None
  | _ =>
      match lstrip r with
      | String u rest => if is_unit u && all_ws rest then Some (ds, u) else None
      | EmptyString => None
      end
  end.

(** [int(m.group(1))] on a string of decimal digits *)
Fixpoint digits_value_acc (acc : Z) (s : string) : Z :=
  match s with
  | EmptyString => acc
  | String c s' => digits_value_acc (10 * acc + digit_val c) s'
  end.
Definition digits_value (s : string) : Z := digits_value_acc 0 s.

(** [{"s": 1, "m": 60, "h": 3600, "d": 86400, "w": 604800}[unit]] *)
Definition unit_mult (u : ascii) : Z :=
  match u with
  | "s"%char => 1
  | "m"%char => 60
  | "h"%char => 3600
  | "d"%char => 86400
  | _ => 604800
  end.

(* ------------------------------------------------------------------ *)
(** ** parse_offset_str *)

(** The loop body over the comma-separated parts, [out] in append order. *)
Fixpoint parse_parts (parts : list string) (out : list Z) : result (list Z) :=
  match parts with
  | [] => Ok out
  | part :: rest =>
      let p := strip part in
      match p with
      | EmptyString => parse_parts rest out            (* if not p: continue *)
      | _ =>
          match duration_match p with
          | None => Err (InvalidDuration p)             (* raise ValueError *)
          | Some (ds, u) =>
              parse_parts rest (out ++ [digits_value ds * unit_mult (lower u)])
          end
      end
  end.

(** [sorted(..., reverse=True)] on integers *)
Fixpoint insert_desc (x : Z) (l : list Z) : list Z :=
  match l with
  | [] => [x]
  | y :: l' => if y <? x then x :: l else y :: insert_desc x l'
  end.

Fixpoint sort_desc (l : list Z) : list Z :=
  match l with
  | [] => []
  | x :: l' => insert_desc x (sort_desc l')
  end.

(** [sorted(set(out), reverse=True)] *)
Definition unique_desc (out : list Z) : list Z :=
  sort_desc (List.nodup Z.eq_dec out).

Definition parse_offset_str (offset_str : string) : result (list Z) :=
  match parse_parts (split_on "," offset_str) [] with
  | Ok out => Ok (unique_desc out)
  | Err e => Err e
  end.

(* ------------------------------------------------------------------ *)
(** ** default_offsets *)

Definition default_offsets (now_utc due_utc : Z) : list Z :=
  let lead := due_utc - now_utc in
  let day := 86400 in
  let hour := 3600 in
  if 3 * day <=? lead then [3 * day; 2 * day; day]
  else if (2 * day <=? lead) && (lead <? 3 * day) then [day]
  else if (12 * hour <=? lead) && (lead <? 2 * day) then [4 * hour]
  else if (4 * hour <=? lead) && (lead <? 12 * hour) then [2 * hour]
  else if (hour <=? lead) && (lead <? 4 * hour) then [hour]
  else if (30 * 60 <=? lead) && (lead <? hour) then [30 * 60]
  else if 10 * 60 <? lead then [10 * 60] else [Z.max (lead - 60) 60].

(* ------------------------------------------------------------------ *)
(** ** The SQLite store (src/db.py, SCHEMA) *)

(** A row of [projects]. *)
Record project := mkProject {
  p_id : Z; p_guild : Z; p_name : string; p_description : string;
  p_due : Z; p_tz : string; p_role : Z; p_channel : Z;
  p_created_by : Z; p_created_at : Z }.

(** A row of [reminders]; [sent] and [custom] are 0/1 integers. *)
Record reminder := mkReminder {
  r_id : Z; r_project : Z; r_ts : Z; r_sent : bool; r_custom : bool;
  r_message : option string }.

(** The columns of [config] the scheduling code reads or writes; NULL is
    [None]. *)
Record config := mkConfig {
  c_timezone : option string; c_channel : option Z; c_digest_time : option string }.

(** The tables are keyed by their INTEGER PRIMARY KEY; [next_pid] and
    [next_rid] are the AUTOINCREMENT counters. *)
Record store := mkStore {
  projects : gmap Z project; reminders : gmap Z reminder;
  configs : gmap Z config; next_pid : Z; next_rid : Z }.

Definition set_reminders (st : store) (rs : gmap Z reminder) (n : Z) : store :=
  mkStore (projects st) rs (configs st) (next_pid st) n.

(** [INSERT INTO reminders (project_id, remind_ts, sent, custom, message)]
    for each timestamp in order, ids taken from the AUTOINCREMENT counter. *)
Fixpoint insert_reminders (pid : Z) (custom : bool) (tss : list Z)
    (rs : gmap Z reminder) (next : Z) : gmap Z reminder * Z :=
  match tss with
  | [] => (rs, next)
  | ts :: tss' =>
      insert_reminders pid custom tss'
        (<[next := mkReminder next pid ts false custom None]> rs) (next + 1)
  end.

(** Which store call of [project_create] raises (an sqlite3 exception).
    [Database.execute] / [executemany] run the statement(s) and then
    [commit()].  The connection is in sqlite3's default implicit-transaction
    mode: a statement that raises is undone by SQLite, but the rows of the
    earlier statements of the open transaction stay in it, visible on this
    connection (the poller shares it) and committed by the next [commit()].
    The store below is that visible state. *)
Inductive fault :=
  | NoFault
  | FailProjectInsert            (* INSERT INTO projects raises: no row *)
  | FailProjectCommit            (* the INSERT ran, its commit() raises *)
  | FailReminderInsert (k : nat). (* executemany raises after its first k rows;
                                     k >= number of rows: the commit() raises *)

(** Python truthiness of an [Optional[str]] *)
Definition truthy (o : option string) : bool :=
  match o with Some (String _ _) => true | _ => false end.

(** The reminder timestamps of [project_create]: [due - off] for each offset,
    kept if it is more than 30 seconds from now. *)
Fixpoint reminder_candidates (now_utc due_utc : Z) (offsets : list Z) : list Z :=
  match offsets with
  | [] => []
  | off :: offs =>
      let ts := due_utc - off in
      if now_utc + 30 <? ts then ts :: reminder_candidates now_utc due_utc offs
      else reminder_candidates now_utc due_utc offs
  end.

(** "Always ensure at least one reminder; if none valid, try 5 minutes
    before due" *)
Definition with_fallback (now_utc due_utc : Z) (reminder_ts : list Z) : list Z :=
  match reminder_ts with
  | [] => let fallback := Z.max (due_utc - 300) (now_utc + 60) in
          if fallback <? due_utc then [fallback] else []
  | _ => reminder_ts
  end.

(** [project_create], from the guild check on.  The due string has been
    parsed to [due_utc] in the timezone [tz] already resolved by the
    command; [now_utc] is [int(datetime.now(tzinfo).timestamp())] and
    [created_at] is [int(time.time())].  On success the command returns the
    new project id and the reminder timestamps it reports. *)
Definition project_create (flt : fault) (st : store) (guild_id : option Z)
    (name : string) (due_utc now_utc created_at : Z) (tz : string)
    (role channel user : Z) (description custom_offsets : option string)
    : result (Z * list Z) * store :=
  match guild_id with
  | None => (Err NotInServer, st)
  | Some gid =>
      if due_utc <=? now_utc + 60 then (Err TooSoon, st) else
      let offsets :=
        if truthy custom_offsets then parse_offset_str (default "" custom_offsets)
        else Ok (default_offsets now_utc due_utc) in
      match offsets with
      | Err e => (Err e, st)
      | Ok offs =>
          let reminder_ts := with_fallback now_utc due_utc
                               (reminder_candidates now_utc due_utc offs) in
          match flt with
          | FailProjectInsert => (Err StoreFailure, st)
          | _ =>
              let pid := next_pid st in
              let prj := mkProject pid gid name (default "" description) due_utc tz
                           role channel user created_at in
              let st1 := mkStore (<[pid := prj]> (projects st)) (reminders st)
                           (configs st) (pid + 1) (next_rid st) in
              match flt with
              | FailProjectCommit => (Err StoreFailure, st1)
              | FailReminderInsert k =>
                  let '(rs, n) := insert_reminders pid (truthy custom_offsets)
                                    (firstn k reminder_ts) (reminders st1) (next_rid st1) in
                  (Err StoreFailure, set_reminders st1 rs n)
              | _ =>
                  let '(rs, n) := insert_reminders pid (truthy custom_offsets)
                                    reminder_ts (reminders st1) (next_rid st1) in
                  (Ok (pid, reminder_ts), set_reminders st1 rs n)
              end
          end
      end
  end.

(** [project_add_reminder]: the project must belong to the guild; each
    reminder is inserted by its own committed statement. *)
Fixpoint add_reminder_loop (pid due_utc now_utc : Z) (offs : list Z)
    (rs : gmap Z reminder) (next : Z) (inserted : list Z)
    : gmap Z reminder * Z * list Z :=
  match offs with
  | [] => (rs, next, inserted)
  | off :: offs' =>
      let ts := due_utc - off in
      if now_utc + 30 <? ts then
        add_reminder_loop pid due_utc now_utc offs'
          (<[next := mkReminder next pid ts false true None]> rs) (next + 1)
          (inserted ++ [ts])
      else add_reminder_loop pid due_utc now_utc offs' rs next inserted
  end.

Definition project_add_reminder (st : store) (guild_id : option Z)
    (project_id : Z) (offset : string) (now_utc : Z) : result (list Z) * store :=
  match projects st !! project_id with
  | Some prj =>
      if bool_decide (guild_id = Some (p_guild prj)) then
        match parse_offset_str offset with
        | Err e => (Err e, st)
        | Ok offs =>
            let '(rs, n, inserted) :=
              add_reminder_loop project_id (p_due prj) now_utc offs
                (reminders st) (next_rid st) [] in
            let st' := set_reminders st rs n in
            match inserted with
            | [] => (Err NoValidReminder, st')
            | _ => (Ok inserted, st')
            end
        end
      else (Err ProjectNotFound, st)
  | None => (Err ProjectNotFound, st)
  end.

(* ------------------------------------------------------------------ *)
(** ** _reminder_loop *)

(** A row of the poll query: [r.id as rid], the reminder and its project
    (the JOIN on [p.id = r.project_id]). *)
Definition poll_row : Type := (Z * reminder * project)%type.

Definition row_id (row : poll_row) : Z := let '(rid, _, _) := row in rid.
Definition row_ts (row : poll_row) : Z := let '(_, r, _) := row in r_ts r.

(** [WHERE r.sent = 0 AND r.remind_ts BETWEEN now - 60 AND now + 30] *)
Definition select_row (st : store) (now : Z) (kr : Z * reminder) : option poll_row :=
  let '(rid, r) := kr in
  if negb (r_sent r) && (now - 60 <=? r_ts r) && (r_ts r <=? now + 30) then
    match projects st !! r_project r with
    | Some p => Some (rid, r, p)
    | None => None
    end
  else None.

(** [ORDER BY r.remind_ts ASC], as a stable insertion sort. *)
Fixpoint insert_row (x : poll_row) (l : list poll_row) : list poll_row :=
  match l with
  | [] => [x]
  | y :: l' => if row_ts x <=? row_ts y then x :: l else y :: insert_row x l'
  end.

Fixpoint sort_rows (l : list poll_row) : list poll_row :=
  match l with
  | [] => []
  | x :: l' => insert_row x (sort_rows l')
  end.

Definition due_rows (st : store) (now : Z) : list poll_row :=
  sort_rows (omap (select_row st now) (map_to_list (reminders st))).

(** What one iteration of the loop does, in order. *)
Inductive poll_event :=
  | Delivered (rid : Z)        (* the try block ran to channel.send *)
  | DeliveryFailed (rid : Z)   (* the try block raised; the error is printed *)
  | MarkedSent (rid : Z).      (* UPDATE reminders SET sent = 1 WHERE id = rid *)

Definition set_sent (r : reminder) : reminder :=
  mkReminder (r_id r) (r_project r) (r_ts r) true (r_custom r) (r_message r).

Definition mark_sent (rid : Z) (rs : gmap Z reminder) : gmap Z reminder :=
  alter set_sent rid rs.

(** [deliver rid r p] is the outcome of the try block for that row (channel
    lookup, embed and send): [true] when it completes, [false] when it
    raises.  Both branches end in the same UPDATE. *)
Fixpoint process_rows (deliver : Z -> reminder -> project -> bool)
    (rows : list poll_row) (rs : gmap Z reminder) (log : list poll_event)
    : gmap Z reminder * list poll_event :=
  match rows with
  | [] => (rs, log)
  | (rid, r, p) :: rows' =>
      let ev := if deliver rid r p then Delivered rid else DeliveryFailed rid in
      process_rows deliver rows' (mark_sent rid rs) (log ++ [ev; MarkedSent rid])
  end.

Definition reminder_loop (deliver : Z -> reminder -> project -> bool)
    (now : Z) (st : store) : store * list poll_event :=
  match due_rows st now with
  | [] => (st, [])                                     (* if not rows: return *)
  | rows =>
      let '(rs, log) := process_rows deliver rows (reminders st) [] in
      (set_reminders st rs (next_rid st), log)
  end.

(** Successive iterations of [tasks.loop(seconds=30.0)], each with its
    clock reading and its delivery outcomes. *)
Fixpoint run_polls (cycles : list (Z * (Z -> reminder -> project -> bool)))
    (st : store) : store * list poll_event :=
  match cycles with
  | [] => (st, [])
  | (now, deliver) :: cycles' =>
      let '(st1, log1) := reminder_loop deliver now st in
      let '(st2, log2) := run_polls cycles' st1 in
      (st2, log1 ++ log2)
  end.

Definition attempted (ev : poll_event) : option Z :=
  match ev with Delivered rid | DeliveryFailed rid => Some rid | MarkedSent _ => None end.

Definition marked (ev : poll_event) : option Z :=
  match ev with MarkedSent rid => Some rid | _ => None end.

(* ------------------------------------------------------------------ *)
(** ** parse_timezone *)

(** A tzinfo: [timezone.utc] or [ZoneInfo(name)]. *)
Inductive tzinfo := TzUTC | TzZone (name : string).

(** [str.upper()] on ASCII text *)
Definition upper_char (c : ascii) : ascii :=
  let n := nat_of_ascii c in
  if ((97 <=? n) && (n <=? 122))%nat then ascii_of_nat (n - 32) else c.

Fixpoint upper (s : string) : string :=
  match s with
  | EmptyString => EmptyString
  | String c s' => String (upper_char c) (upper s')
  end.

(** [zone_resolves name] says whether [ZoneInfo(name)] returns without
    raising (tzdata lookup, outside the repository). *)
Definition parse_timezone (zone_resolves : string -> bool) (tz_name : option string)
    : tzinfo :=
  let name := strip (if truthy tz_name then default "UTC" tz_name else "UTC") in
  if String.eqb (upper name) "UTC" || String.eqb (upper name) "Z" then TzUTC
  else if zone_resolves name then TzZone name
  else TzUTC.

(* ------------------------------------------------------------------ *)
(** ** _digest_loop *)

(** The local wall clock [guild_now = now_utc.astimezone(tz)]: hour,
    minute, and the calendar date printed by [strftime('%Y-%m-%d')] (as a
    day number; the printing is injective). *)
Record local_clock := mkClock { l_hour : Z; l_minute : Z; l_date : Z }.

(** The builtins the digest loop calls. *)
Record digest_env := mkDigestEnv {
  zone_resolves : string -> bool;        (* ZoneInfo(name) does not raise *)
  astimezone : tzinfo -> Z -> local_clock;
  week_end : tzinfo -> Z -> Z;           (* int((guild_now + 7 days).timestamp()) *)
  py_int : string -> option Z;           (* int(s), None when it raises *)
  channel_ok : Z -> bool;                (* get_channel / fetch_channel succeeds *)
  send_ok : Z -> bool }.                 (* channel.send succeeds *)

(** [digest_h, digest_m = map(int, hhmm.split(":"))], 9:00 on any error *)
Definition digest_time (env : digest_env) (hhmm : string) : Z * Z :=
  match split_on ":" hhmm with
  | [h; m] =>
      match py_int env h, py_int env m with
      | Some h', Some m' => (h', m')
      | _, _ => (9, 0)
      end
  | _ => (9, 0)
  end.

(** The debounce key [f"{guild.id}:{date}"], as the pair it prints. *)
Definition digest_key : Type := (Z * Z)%type.

Inductive digest_event :=
  | DigestChannelError (gid date : Z)     (* channel lookup raised *)
  | DigestSend (gid date : Z) (ok : bool).  (* channel.send was called *)

(** [SELECT ... FROM projects WHERE guild_id = ? AND due_ts BETWEEN ? AND ?] *)
Definition upcoming (st : store) (gid start_ts end_ts : Z) : list (Z * project) :=
  filter (fun kp => p_guild kp.2 = gid /\ start_ts <= p_due kp.2 <= end_ts)
    (map_to_list (projects st)).

(** The body of the loop for one guild; [now_utc] is in epoch seconds. *)
Definition digest_guild (env : digest_env) (now_utc : Z) (st : store)
    (gid : Z) (cache : gset digest_key) : gset digest_key * list digest_event :=
  match configs st !! gid with
  | None => (cache, [])
  | Some cfg =>
      match c_channel cfg with
      | None | Some 0 => (cache, [])                   (* not cfg[...]: continue *)
      | Some ch =>
          let tz := parse_timezone (zone_resolves env)
                      (if truthy (c_timezone cfg) then c_timezone cfg else Some "UTC") in
          let hhmm := if truthy (c_digest_time cfg) then default "09:00" (c_digest_time cfg)
                      else "09:00" in
          let '(digest_h, digest_m) := digest_time env hhmm in
          let guild_now := astimezone env tz now_utc in
          if (l_hour guild_now =? digest_h) && (l_minute guild_now =? digest_m) then
            let key := (gid, l_date guild_now) in
            if bool_decide (key ∈ cache) then (cache, [])
            else
              let cache' := {[key]} ∪ cache in
              if negb (channel_ok env ch) then
                (cache', [DigestChannelError gid (l_date guild_now)])
              else
                match upcoming st gid now_utc (week_end env tz now_utc) with
                | [] => (cache', [])                    (* if not rows: continue *)
                | _ => (cache', [DigestSend gid (l_date guild_now) (send_ok env ch)])
                end
          else (cache, [])
      end
  end.

(** [for guild in self.bot.guilds] *)
Fixpoint digest_loop (env : digest_env) (now_utc : Z) (st : store)
    (guilds : list Z) (cache : gset digest_key) : gset digest_key * list digest_event :=
  match guilds with
  | [] => (cache, [])
  | gid :: guilds' =>
      let '(cache1, log1) := digest_guild env now_utc st gid cache in
      let '(cache2, log2) := digest_loop env now_utc st guilds' cache1 in
      (cache2, log1 ++ log2)
  end.

(** Successive iterations of [tasks.loop(minutes=1.0)] in one process,
    sharing [self._digest_cache]; each iteration has its own clock, store,
    guild list and builtin outcomes. *)
Fixpoint run_digests (runs : list (digest_env * Z * store * list Z))
    (cache : gset digest_key) : gset digest_key * list digest_event :=
  match runs with
  | [] => (cache, [])
  | (env, now, st, guilds) :: runs' =>
      let '(cache1, log1) := digest_loop env now st guilds cache in
      let '(cache2, log2) := run_digests runs' cache1 in
      (cache2, log1 ++ log2)
  end.

Definition event_key (ev : digest_event) : digest_key :=
  match ev with DigestChannelError g d | DigestSend g d _ => (g, d) end.

Definition send_key (ev : digest_event) : option digest_key :=
  match ev with DigestSend g d _ => Some (g, d) | _ => None end.

(* ------------------------------------------------------------------ *)
(** ** deadlines_configure *)

(** [datetime.strptime(s, "%H:%M")]: the pattern
    [(2[0-3]|[0-1]\d|\d):([0-5]\d|\d)] must match the whole string. *)
Definition hour_ok (s : string) : bool :=
  match s with
  | String a EmptyString => is_digit a
  | String a (String b EmptyString) =>
      is_digit a && is_digit b &&
      ((digit_val a <=? 1) || ((digit_val a =? 2) && (digit_val b <=? 3)))
  | _ => false
  end.

Definition minute_ok (s : string) : bool :=
  match s with
  | String a EmptyString => is_digit a
  | String a (String b EmptyString) => is_digit a && is_digit b && (digit_val a <=? 5)
  | _ => false
  end.

Definition strptime_hhmm_ok (s : string) : bool :=
  match split_on ":" s with
  | [h; m] => hour_ok h && minute_ok m
  | _ => false
  end.

(** [Database.upsert_config(guild_id, deadlines_channel_id=..., 
    deadlines_digest_time=..., timezone=...)]: UPDATE of the three columns
    when the row exists, INSERT otherwise. *)
Definition upsert_digest_config (st : store) (gid ch : Z) (t : string)
    (tz : option string) : store :=
  mkStore (projects st) (reminders st)
    (<[gid := mkConfig tz (Some ch) (Some t)]> (configs st))
    (next_pid st) (next_rid st).

Definition deadlines_configure (zone_resolves : string -> bool) (st : store)
    (gid ch : Z) (time_hhmm : string) (timezone : option string)
    : result unit * store :=
  if negb (strptime_hhmm_ok time_hhmm) then (Err InvalidTime, st)
  else
    (* if timezone: _ = parse_timezone(timezone)   -- the value is discarded *)
    let _ := if truthy timezone then Some (parse_timezone zone_resolves timezone) else None in
    let tz := if truthy timezone then timezone
              else match configs st !! gid with
                   | Some cfg => c_timezone cfg
                   | None => Some "UTC"
                   end in
    (Ok tt, upsert_digest_config st gid ch time_hhmm tz).

Definition empty_store : store := mkStore ∅ ∅ ∅ 1 1.

(** Modelled after the lead-time table of the spec (section 4.1), to be
    compared with [default_offsets]: one row per interval of the lead time. *)
Definition default_offsets_table (lead : Z) : list Z :=
  let m := 60 in let h := 3600 in let d := 86400 in
  if 3 * d <=? lead then [3 * d; 2 * d; 1 * d]
  else if (2 * d <=? lead) && (lead <? 3 * d) then [1 * d]
  else if (12 * h <=? lead) && (lead <? 2 * d) then [4 * h]
  else if (4 * h <=? lead) && (lead <? 12 * h) then [2 * h]
  else if (1 * h <=? lead) && (lead <? 4 * h) then [1 * h]
  else if (30 * m <=? lead) && (lead <? 1 * h) then [30 * m]
  else if (10 * m <? lead) && (lead <? 30 * m) then [10 * m]
  else [Z.max (lead - 1 * m) (1 * m)].

(** A string made only of commas and whitespace. *)
Fixpoint commas_ws_only (s : string) : bool :=
  match s with
  | EmptyString => true
  | String c s' => (Ascii.eqb c "," || is_ws c) && commas_ws_only s'
  end.

(** The value of one comma-separated part, when it is a duration token
    (None for an empty part and for a malformed one). *)
Definition token_value (part : string) : option Z :=
  match strip part with
  | EmptyString => None
  | p => match duration_match p with
         | Some (ds, u) => Some (digits_value ds * unit_mult (lower u))
         | None => None
         end
  end.

(** The events one row of the poll loop produces, in order. *)
Definition row_events (deliver : Z -> reminder -> project -> bool) (row : poll_row)
    : list poll_event :=
  let '(rid, r, p) := row in
  [if deliver rid r p then Delivered rid else DeliveryFailed rid; MarkedSent rid].

(** The reminder row [rid], if present, has [sent = 1]. *)
Definition sent_in (rs : gmap Z reminder) (rid : Z) : Prop :=
  forall r, rs !! rid = Some r -> r_sent r = true.

(* ------------------------------------------------------------------ *)
(** ** Database.upsert_config and deadlines_timezone *)

(** One keyword argument of [upsert_config] (the scheduling columns). *)
Inductive config_col :=
  | SetTimezone (v : option string)
  | SetChannel (v : option Z)
  | SetDigestTime (v : option string).

Definition set_col (cfg : config) (c : config_col) : config :=
  match c with
  | SetTimezone v => mkConfig v (c_channel cfg) (c_digest_time cfg)
  | SetChannel v => mkConfig (c_timezone cfg) v (c_digest_time cfg)
  | SetDigestTime v => mkConfig (c_timezone cfg) (c_channel cfg) v
  end.

(** The column defaults of [CREATE TABLE config]: timezone 'UTC',
    deadlines_channel_id NULL, deadlines_digest_time '09:00'. *)
Definition default_config : config := mkConfig (Some "UTC") None (Some "09:00").

(** [upsert_config(guild_id, **kwargs)]: UPDATE of the given columns when
    the row exists, else INSERT of them, the other columns taking their
    defaults. *)
Definition upsert_config (st : store) (gid : Z) (cols : list config_col) : store :=
  let base := match configs st !! gid with Some cfg => cfg | None => default_config end in
  mkStore (projects st) (reminders st) (<[gid := fold_left set_col cols base]> (configs st))
    (next_pid st) (next_rid st).

(** [deadlines_timezone]: [parse_timezone] is called and its value
    discarded; the string is stored as given. *)
Definition deadlines_timezone (zone_resolves : string -> bool) (st : store) (gid : Z)
    (timezone : string) : result unit * store :=
  let _ := parse_timezone zone_resolves (Some timezone) in
  (Ok tt, upsert_config st gid [SetTimezone (Some timezone)]).

(* ------------------------------------------------------------------ *)
(** ** project_delete *)

(** [project_delete]: the project must belong to the guild; DELETE of the
    project row, and of its reminder rows by ON DELETE CASCADE
    ([PRAGMA foreign_keys = ON]). *)
Definition project_delete (st : store) (guild_id : option Z) (project_id : Z)
    : result unit * store :=
  match projects st !! project_id with
  | Some prj =>
      if bool_decide (guild_id = Some (p_guild prj)) then
        (Ok tt, mkStore (delete project_id (projects st))
                  (filter (fun kr => r_project kr.2 <> project_id) (reminders st))
                  (configs st) (next_pid st) (next_rid st))
      else (Err ProjectNotFound, st)
  | None => (Err ProjectNotFound, st)
  end.

(** Every reminder row references an existing project (the FOREIGN KEY). *)
Definition refs_ok (st : store) : Prop :=
  map_Forall (fun _ r => is_Some (projects st !! r_project r)) (reminders st).

(** A UTC-only instance of the digest builtins, for concrete runs: local
    time is epoch seconds split into day, hour and minute; [int()] accepts
    a non-empty string of ASCII digits; every channel resolves and every
    send succeeds. *)
Definition utc_env : digest_env :=
  mkDigestEnv (fun _ => false)
    (fun _ t => mkClock ((t mod 86400) / 3600) ((t mod 3600) / 60) (t / 86400))
    (fun _ t => t + 7 * 86400)
    (fun s => if negb (String.eqb s "") && forallb is_digit (list_ascii_of_string s)
              then Some (digits_value s) else None)
    (fun _ => true) (fun _ => true).

(** A store where guild 1 has its digest configured for 09:00 UTC in
    channel 5, and one project due at 10:00 UTC on day 0. *)
Definition digest_store : store :=
  mkStore {[1 := mkProject 1 1 "p" "" 36000 "UTC" 2 5 3 0]} ∅
    {[1 := mkConfig (Some "UTC") (Some 5) (Some "09:00")]} 2 1.


(* ================================================================== *)
(** * Properties *)

Example parse_ex1 : parse_offset_str "3d, 24h, 4h, 30m" = Ok [259200; 86400; 14400; 1800].
Proof. reflexivity. Qed.
Example parse_ex2 : parse_offset_str " 2 W ,1d,1d" = Ok [1209600; 86400].
Proof. reflexivity. Qed.
Example parse_ex3 : parse_offset_str "3d,x" = Err (InvalidDuration "x").
Proof. reflexivity. Qed.
Example default_ex : default_offsets 0 300 = [240].
Proof. reflexivity. Qed.

Ltac z_cases :=
  repeat (match goal with
          | |- context [?a <=? ?b] => destruct (Z.leb_spec a b)
          | |- context [?a <? ?b] => destruct (Z.ltb_spec a b)
          end; cbn [andb orb]; try lia).

(** C3: for every [now] and [due], [default_offsets now due] is the row of
    the spec's lead-time table for [due - now]; in particular a lead of 4
    days gives [3d; 2d; 1d], 1800 s gives [1800] and 300 s gives [240]. *)
Theorem default_offsets_table_agree (now due : Z) :
  default_offsets now due = default_offsets_table (due - now) /\
  default_offsets 0 (4 * 86400) = [259200; 172800; 86400] /\
  default_offsets 0 1800 = [1800] /\
  default_offsets 0 300 = [240].
Proof.
  split; [| repeat split; reflexivity].
  unfold default_offsets, default_offsets_table.
  generalize (due - now) as lead; intros lead.
  z_cases; reflexivity.
Qed.

(** C9: [default_offsets] is total and never empty; every offset is at
    least 60 s, and a lead of at most 10 minutes (even zero or negative)
    gives the single offset [max(lead - 60, 60)]. *)
Theorem default_offsets_nonempty (now due : Z) :
  default_offsets now due <> [] /\
  Forall (fun x => 60 <= x) (default_offsets now due) /\
  (due - now <= 600 -> default_offsets now due = [Z.max (due - now - 60) 60]).
Proof.
  unfold default_offsets.
  generalize (due - now) as lead; intros lead.
  z_cases; repeat split; try discriminate; repeat constructor; lia.
Qed.

(** C1: a custom offset of zero seconds yields a reminder row whose fire
    instant is the due instant itself, both through [project create] and
    through [project add-reminder]: only the lower bound [now + 30] is
    checked. *)
Theorem zero_offset_fires_at_due :
  let '(res, st1) := project_create NoFault empty_store (Some 1) "p" 7200 0 0
                       "UTC" 2 3 4 None (Some "0s") in
  res = Ok (1, [7200]) /\
  reminders st1 !! 1 = Some (mkReminder 1 1 7200 false true None) /\
  option_map p_due (projects st1 !! 1) = Some 7200 /\
  let '(res2, st2) := project_add_reminder st1 (Some 1) 1 "0m" 100 in
  res2 = Ok [7200] /\
  reminders st2 !! 2 = Some (mkReminder 2 1 7200 false true None).
Proof. vm_compute. repeat split; reflexivity. Qed.

(** C5, counterexample: when the reminder insert raises before its first
    row, the project row committed by the previous statement stays, with no
    reminder row; when it raises after its first row, that one reminder row
    stays too and the next poll at its time selects it. *)
Lemma create_not_atomic :
  let '(res, st1) := project_create (FailReminderInsert 0) empty_store (Some 1) "p"
                       (10 * 86400) 0 0 "UTC" 2 3 4 None None in
  res = Err StoreFailure /\ is_Some (projects st1 !! 1) /\ reminders st1 = ∅ /\
  (let '(res2, st2) := project_create (FailReminderInsert 1) empty_store (Some 1) "p"
                         (10 * 86400) 0 0 "UTC" 2 3 4 None None in
   res2 = Err StoreFailure /\
   reminders st2 = {[1 := mkReminder 1 1 (7 * 86400) false false None]} /\
   row_id <$> due_rows st2 (7 * 86400) = [1]).
Proof. vm_compute. repeat split; [eexists; reflexivity]. Qed.

(** C6, counterexample: an unresolvable timezone name is accepted and
    stored as given; no InvalidTimezone error is returned. *)
Lemma configure_keeps_unresolvable_tz :
  let '(res, st1) := deadlines_configure (fun _ => false) empty_store 1 5 "09:00"
                       (Some "Mars/Olympus") in
  res = Ok tt /\
  configs st1 !! 1 = Some (mkConfig (Some "Mars/Olympus") (Some 5) (Some "09:00")) /\
  parse_timezone (fun _ => false) (Some "Mars/Olympus") = TzUTC.
Proof. vm_compute. repeat split; reflexivity. Qed.

(** C5 (as the code does it): the project row is inserted and committed
    by its own statement before the reminder rows are inserted by one
    [executemany].  If that [executemany] raises after its first [k] rows
    (or its commit raises, [k] at least the number of rows), the project row
    stays with exactly those first [k] reminder rows; if the project's commit
    raises, the project row stays with no reminder; only if the project
    INSERT itself raises is nothing stored. *)
Theorem create_commits_project_first (st : store) (gid : Z) (name : string)
    (due now created : Z) (tz : string) (role ch user : Z)
    (descr custom : option string) (offs : list Z) (k : nat) :
  now + 60 < due ->
  (if truthy custom then parse_offset_str (default "" custom)
   else Ok (default_offsets now due)) = Ok offs ->
  let prj := mkProject (next_pid st) gid name (default "" descr) due tz role ch user created in
  let st1 := mkStore (<[next_pid st := prj]> (projects st)) (reminders st) (configs st)
               (next_pid st + 1) (next_rid st) in
  let tss := with_fallback now due (reminder_candidates now due offs) in
  project_create (FailReminderInsert k) st (Some gid) name due now created tz role ch user
    descr custom =
    (Err StoreFailure,
     set_reminders st1
       (fst (insert_reminders (next_pid st) (truthy custom) (firstn k tss) (reminders st)
               (next_rid st)))
       (snd (insert_reminders (next_pid st) (truthy custom) (firstn k tss) (reminders st)
               (next_rid st)))) /\
  project_create FailProjectCommit st (Some gid) name due now created tz role ch user
    descr custom = (Err StoreFailure, st1) /\
  project_create FailProjectInsert st (Some gid) name due now created tz role ch user
    descr custom = (Err StoreFailure, st).
Proof.
  intros Hdue Hoffs. cbv zeta. unfold project_create.
  destruct (Z.leb_spec due (now + 60)); [lia |].
  cbv zeta. rewrite Hoffs. cbn [reminders next_rid].
  destruct (insert_reminders _ _ _ _ _). split; [reflexivity | split; reflexivity].
Qed.

Lemma create_commits_project_first_witness :
  0 + 60 < 864000 /\
  (if truthy None then parse_offset_str (default "" None)
   else Ok (default_offsets 0 864000)) = Ok [259200; 172800; 86400] /\
  project_create FailProjectCommit empty_store (Some 1) "p" 864000 0 0 "UTC" 2 3 4
    None None =
    (Err StoreFailure,
     mkStore (<[1 := mkProject 1 1 "p" "" 864000 "UTC" 2 3 4 0]> ∅) ∅ ∅ 2 1).
Proof.
  split; [lia | split; [reflexivity |]].
  exact (proj1 (proj2 (create_commits_project_first empty_store 1 "p" 864000 0 0 "UTC" 2 3 4
                  None None [259200; 172800; 86400] 2 ltac:(lia) eq_refl))).
Defined.

(** C6 (as the code does it): with a valid HH:MM time and a non-empty
    timezone string, [deadlines configure] always succeeds and stores the
    string as given, resolvable or not; [parse_timezone] falls back to UTC
    for a name that does not resolve. *)
Theorem configure_never_invalid_timezone (zr : string -> bool) (st : store)
    (gid ch : Z) (t : string) (tz : option string) :
  strptime_hhmm_ok t = true -> truthy tz = true ->
  deadlines_configure zr st gid ch t tz = (Ok tt, upsert_digest_config st gid ch t tz) /\
  configs (upsert_digest_config st gid ch t tz) !! gid = Some (mkConfig tz (Some ch) (Some t)) /\
  (forall tzn, zr (strip tzn) = false -> parse_timezone zr (Some tzn) = TzUTC).
Proof.
  intros Ht Htz. split; [| split].
  - unfold deadlines_configure. rewrite Ht, Htz. reflexivity.
  - unfold upsert_digest_config. cbn [configs]. apply lookup_insert_eq.
  - intros tzn Hzr. unfold parse_timezone.
    destruct tzn as [| c s]; [reflexivity |]. cbn [truthy default]. cbv zeta. unfold id.
    destruct (_ || _); [reflexivity |]. rewrite Hzr. reflexivity.
Qed.

Lemma configure_never_invalid_timezone_witness :
  strptime_hhmm_ok "09:00" = true /\ truthy (Some "Mars/Olympus") = true /\
  deadlines_configure (fun _ => false) empty_store 1 5 "09:00" (Some "Mars/Olympus") =
    (Ok tt, upsert_digest_config empty_store 1 5 "09:00" (Some "Mars/Olympus")).
Proof.
  split; [reflexivity | split; [reflexivity |]].
  exact (proj1 (configure_never_invalid_timezone (fun _ => false) empty_store 1 5 "09:00"
                  (Some "Mars/Olympus") eq_refl eq_refl)).
Defined.

Lemma split_on_commas_ws (s : string) :
  commas_ws_only s = true -> Forall (fun p => all_ws p = true) (split_on "," s).
Proof.
  induction s as [| c s IH]; cbn [commas_ws_only split_on]; [repeat constructor |].
  intros H. apply andb_prop in H as [Hc Hs]. specialize (IH Hs).
  destruct (Ascii.eqb c ",") eqn:Ec.
  - constructor; [reflexivity | exact IH].
  - cbn [orb] in Hc. destruct (split_on "," s) as [| p ps] eqn:Es.
    + constructor; [cbn; rewrite Hc; reflexivity | constructor].
    + inversion IH as [| ? ? Hp Hps]; subst.
      constructor; [cbn; rewrite Hc, Hp; reflexivity | exact Hps].
Qed.

Lemma lstrip_all_ws (p : string) : all_ws p = true -> lstrip p = EmptyString.
Proof.
  induction p as [| c p IH]; cbn; [reflexivity |].
  intros H. apply andb_prop in H as [Hc Hp]. rewrite Hc. auto.
Qed.

Lemma strip_all_ws (p : string) : all_ws p = true -> strip p = EmptyString.
Proof. intros H. unfold strip. rewrite (lstrip_all_ws p H). reflexivity. Qed.

Lemma parse_parts_blank (parts : list string) (out : list Z) :
  Forall (fun p => all_ws p = true) parts -> parse_parts parts out = Ok out.
Proof.
  intros H. revert out. induction H as [| p ps Hp Hps IH]; intros out; [reflexivity |].
  cbn [parse_parts]. rewrite strip_all_ws by exact Hp. apply IH.
Qed.

Lemma split_on_not_nil (sep : ascii) (s : string) : split_on sep s <> [].
Proof.
  destruct s as [| c s]; cbn [split_on]; [discriminate |].
  destruct (Ascii.eqb c sep); [discriminate |].
  destruct (split_on sep s); discriminate.
Qed.

Lemma split_on_comma_app (a b : string) :
  split_on "," (String.append a (String "," b)) = split_on "," a ++ split_on "," b.
Proof.
  induction a as [| c a IH]; simpl.
  - reflexivity.
  - rewrite IH. destruct (Ascii.eqb c ","); [reflexivity |].
    pose proof (split_on_not_nil "," a) as Hne.
    destruct (split_on "," a) as [| p ps]; [congruence | reflexivity].
Qed.

Lemma parse_parts_app (l1 l2 : list string) (out : list Z) :
  parse_parts (l1 ++ l2) out =
    match parse_parts l1 out with Ok o => parse_parts l2 o | Err e => Err e end.
Proof.
  revert out. induction l1 as [| part l1 IH]; intros out; [reflexivity |].
  cbn [app parse_parts]. destruct (strip part) as [| c r]; [apply IH |].
  destruct (duration_match (String c r)) as [[ds u] |]; [apply IH | reflexivity].
Qed.

Lemma all_ws_commas_ws_only (w : string) : all_ws w = true -> commas_ws_only w = true.
Proof.
  induction w as [| c w IH]; cbn [all_ws commas_ws_only]; [reflexivity |].
  intros H. apply andb_prop in H as [Hc Hw]. rewrite Hc, (IH Hw), orb_true_r. reflexivity.
Qed.

Lemma parse_parts_ws_app (w : string) (l : list string) (out : list Z) :
  all_ws w = true -> parse_parts (split_on "," w ++ l) out = parse_parts l out.
Proof.
  intros Hw. rewrite parse_parts_app, parse_parts_blank; [reflexivity |].
  apply split_on_commas_ws, all_ws_commas_ws_only, Hw.
Qed.

(** C10: empty parts are skipped rather than rejected.  An empty or
    whitespace-only part between two commas, after a last comma or before a
    first comma changes nothing in the result: the string parses exactly as
    it does without that part and its comma; so ["3d,,2d"] parses, and a
    non-empty string of commas and whitespace parses to no offsets.
    [project create] given such a string schedules the single fallback
    reminder at [max(due - 300, now + 60)] and reports no error. *)
Theorem empty_tokens_skipped (s : string) (st : store) (gid : Z) (name : string)
    (due now created : Z) (tz : string) (role ch user : Z) (descr : option string) :
  commas_ws_only s = true -> s <> EmptyString -> now + 60 < due ->
  parse_offset_str "3d,,2d" = Ok [259200; 172800] /\
  parse_offset_str s = Ok [] /\
  fst (project_create NoFault st (Some gid) name due now created tz role ch user descr
         (Some s)) = Ok (next_pid st, [Z.max (due - 300) (now + 60)]) /\
  reminders (snd (project_create NoFault st (Some gid) name due now created tz role ch
                    user descr (Some s))) =
    <[next_rid st := mkReminder (next_rid st) (next_pid st) (Z.max (due - 300) (now + 60))
                       false true None]> (reminders st) /\
  (forall a b w, all_ws w = true ->
     parse_offset_str (String.append a (String "," (String.append w (String "," b)))) =
       parse_offset_str (String.append a (String "," b)) /\
     parse_offset_str (String.append a (String "," w)) = parse_offset_str a /\
     parse_offset_str (String.append w (String "," b)) = parse_offset_str b).
Proof.
  intros Hs Hne Hdue.
  assert (Hp : parse_offset_str s = Ok []).
  { unfold parse_offset_str. rewrite parse_parts_blank by (apply split_on_commas_ws; exact Hs).
    reflexivity. }
  assert (Ht : truthy (Some s) = true) by (destruct s; [congruence | reflexivity]).
  split; [reflexivity | split; [exact Hp |]].
  split; [| split; [| intros a b w Hw; unfold parse_offset_str; rewrite !split_on_comma_app]].
  - unfold project_create. destruct (Z.leb_spec due (now + 60)); [lia |].
    cbv zeta. rewrite Ht. change (default "" (Some s)) with s. rewrite Hp.
    cbn [reminder_candidates with_fallback].
    destruct (Z.ltb_spec (Z.max (due - 300) (now + 60)) due); [| lia]. reflexivity.
  - unfold project_create. destruct (Z.leb_spec due (now + 60)); [lia |].
    cbv zeta. rewrite Ht. change (default "" (Some s)) with s. rewrite Hp.
    cbn [reminder_candidates with_fallback].
    destruct (Z.ltb_spec (Z.max (due - 300) (now + 60)) due); [| lia]. reflexivity.
  - split; [| split].
    + rewrite !parse_parts_app. destruct (parse_parts (split_on "," a) []); [| reflexivity].
      rewrite parse_parts_ws_app by exact Hw. reflexivity.
    + rewrite parse_parts_app. destruct (parse_parts (split_on "," a) []); [| reflexivity].
      rewrite parse_parts_blank by (apply split_on_commas_ws, all_ws_commas_ws_only, Hw).
      reflexivity.
    + rewrite parse_parts_ws_app by exact Hw. reflexivity.
Qed.

Lemma empty_tokens_skipped_witness :
  commas_ws_only " ,, " = true /\ " ,, " <> EmptyString /\ 0 + 60 < 7200 /\
  parse_offset_str " ,, " = Ok [] /\
  parse_offset_str "3d,2d, " = parse_offset_str "3d,2d".
Proof.
  split; [reflexivity | split; [discriminate | split; [lia |]]].
  pose proof (empty_tokens_skipped " ,, " empty_store 1 "p" 7200 0 0 "UTC" 2 3 4
                None eq_refl ltac:(discriminate) ltac:(lia)) as (_ & Hp & _ & _ & Hg).
  split; [exact Hp |].
  exact (proj1 (proj2 (Hg "3d,2d" "" " " eq_refl))).
Defined.

(** ** The parser: failures *)


Lemma parse_offset_str_empty : parse_offset_str EmptyString = Ok [].
Proof. reflexivity. Qed.

(** ** The parser: results *)

Lemma take_digits_spec (s : string) :
  forall ds r, take_digits s = (ds, r) -> forallb is_digit (list_ascii_of_string ds) = true.
Proof.
  induction s as [| c s IH]; cbn [take_digits]; intros ds r H.
  - injection H as <- <-. reflexivity.
  - destruct (is_digit c) eqn:Ec.
    + destruct (take_digits s) as [d r'] eqn:Et. injection H as <- <-.
      cbn. rewrite Ec. exact (IH d r' eq_refl).
    + injection H as <- <-. reflexivity.
Qed.

Lemma digits_value_acc_nonneg (s : string) :
  forall acc, 0 <= acc -> forallb is_digit (list_ascii_of_string s) = true ->
  0 <= digits_value_acc acc s.
Proof.
  induction s as [| c s IH]; cbn; intros acc Hacc H; [exact Hacc |].
  apply andb_prop in H as [Hc Hs]. apply IH; [| exact Hs].
  unfold is_digit in Hc. apply andb_prop in Hc as [H1 _]. apply Nat.leb_le in H1.
  unfold digit_val. lia.
Qed.

Lemma duration_match_nonneg (p ds : string) (u : ascii) :
  duration_match p = Some (ds, u) -> 0 <= digits_value ds.
Proof.
  unfold duration_match. destruct (take_digits (lstrip p)) as [d r] eqn:Et.
  intros H. assert (Hd : forallb is_digit (list_ascii_of_string d) = true)
    by exact (take_digits_spec _ d r Et).
  destruct d as [| c d']; [discriminate |].
  destruct (lstrip r) as [| u' rest]; [discriminate |].
  destruct (is_unit u' && all_ws rest); [| discriminate].
  injection H as <- <-. apply digits_value_acc_nonneg; [lia | exact Hd].
Qed.

Lemma token_value_nonneg (part : string) (x : Z) : token_value part = Some x -> 0 <= x.
Proof.
  unfold token_value. destruct (strip part) as [| c r]; [discriminate |].
  destruct (duration_match (String c r)) as [[ds u] |] eqn:Em; [| discriminate].
  intros H. injection H as <-. apply Z.mul_nonneg_nonneg.
  - exact (duration_match_nonneg _ _ _ Em).
  - unfold unit_mult. repeat case_match; lia.
Qed.

Lemma parse_parts_ok (parts : list string) :
  forall out0 out, parse_parts parts out0 = Ok out ->
  forall x, In x out <-> In x out0 \/ Exists (fun part => token_value part = Some x) parts.
Proof.
  induction parts as [| part parts IH]; cbn [parse_parts]; intros out0 out H x.
  - injection H as <-. rewrite Exists_nil. tauto.
  - rewrite Exists_cons. unfold token_value at 1.
    destruct (strip part) as [| c r] eqn:E.
    + rewrite (IH out0 out H x). split; [tauto |]. intros [? | [Hf | ?]]; [tauto | discriminate | tauto].
    + destruct (duration_match (String c r)) as [[ds u] |] eqn:Em; [| discriminate].
      rewrite (IH _ out H x), in_app_iff. cbn [In]. split.
      * intros [[? | [<- | []]] | ?]; [tauto | right; left; reflexivity | tauto].
      * intros [? | [Hv | ?]]; [tauto | injection Hv as <-; left; right; left; reflexivity | tauto].
Qed.

Lemma insert_desc_perm (x : Z) (l : list Z) : Permutation (insert_desc x l) (x :: l).
Proof.
  induction l as [| y l IH]; cbn; [reflexivity |].
  destruct (y <? x); [reflexivity |].
  rewrite IH. apply perm_swap.
Qed.

Lemma sort_desc_perm (l : list Z) : Permutation (sort_desc l) l.
Proof.
  induction l as [| x l IH]; cbn; [reflexivity |].
  rewrite insert_desc_perm, IH. reflexivity.
Qed.

Lemma insert_desc_sorted (x : Z) (l : list Z) :
  StronglySorted Z.ge l -> StronglySorted Z.ge (insert_desc x l).
Proof.
  induction l as [| y l IH]; cbn; intros H.
  - repeat constructor.
  - apply StronglySorted_inv in H as [Hl Hy].
    destruct (Z.ltb_spec y x).
    + constructor; [constructor; assumption |].
      constructor; [lia |]. rewrite List.Forall_forall in Hy |- *.
      intros z Hz. specialize (Hy z Hz). lia.
    + constructor; [apply IH; exact Hl |].
      rewrite List.Forall_forall in Hy |- *. intros z Hz.
      apply (Permutation_in _ (insert_desc_perm x l)) in Hz.
      destruct Hz as [<- | Hz]; [lia | exact (Hy z Hz)].
Qed.

Lemma sort_desc_sorted (l : list Z) : StronglySorted Z.ge (sort_desc l).
Proof.
  induction l as [| x l IH]; cbn; [constructor |]. apply insert_desc_sorted, IH.
Qed.

Lemma sorted_ge_nodup_gt (l : list Z) :
  StronglySorted Z.ge l -> List.NoDup l -> StronglySorted Z.gt l.
Proof.
  induction l as [| x l IH]; intros Hs Hn; [constructor |].
  apply StronglySorted_inv in Hs as [Hl Hx].
  inversion Hn as [| ? ? Hnot Hn']; subst.
  constructor; [apply IH; assumption |].
  rewrite List.Forall_forall in Hx |- *. intros z Hz.
  specialize (Hx z Hz). assert (z <> x) by (intros ->; exact (Hnot Hz)). lia.
Qed.

Lemma sorted_gt_nodup (l : list Z) : StronglySorted Z.gt l -> List.NoDup l.
Proof.
  induction l as [| x l IH]; intros Hs; [constructor |].
  apply StronglySorted_inv in Hs as [Hl Hx]. constructor; [| apply IH, Hl].
  intros Hin. rewrite List.Forall_forall in Hx. specialize (Hx x Hin). lia.
Qed.

Lemma unique_desc_spec (l : list Z) :
  StronglySorted Z.gt (unique_desc l) /\ (forall x, In x (unique_desc l) <-> In x l).
Proof.
  unfold unique_desc. split.
  - apply sorted_ge_nodup_gt; [apply sort_desc_sorted |].
    eapply Permutation_NoDup; [symmetry; apply sort_desc_perm | apply NoDup_nodup].
  - intros x. split; intros H.
    + apply (Permutation_in _ (sort_desc_perm _)) in H. exact (proj1 (nodup_In _ _ _) H).
    + apply (Permutation_in _ (Permutation_sym (sort_desc_perm _))).
      exact (proj2 (nodup_In _ _ _) H).
Qed.



(** C8, counterexample: ["0s"] matches the pattern and parses to the
    offset 0, which is not positive. *)
Lemma zero_duration_parsed : parse_offset_str "0s" = Ok [0].
Proof. reflexivity. Qed.

(** C8 (as the code does it): on success the offsets are strictly
    descending, duplicate-free and non-negative, and they are exactly the
    values [int(digits) * multiplier] of the non-empty parts. *)
Theorem parse_offsets_sorted (s : string) (out : list Z) :
  parse_offset_str s = Ok out ->
  StronglySorted Z.gt out /\ List.NoDup out /\ Forall (fun x => 0 <= x) out /\
  (forall x, In x out <-> Exists (fun part => token_value part = Some x) (split_on "," s)).
Proof.
  unfold parse_offset_str. destruct (parse_parts (split_on "," s) []) as [l |] eqn:Ep;
    [| discriminate].
  intros H. injection H as <-.
  destruct (unique_desc_spec l) as [Hs Hin].
  assert (Hmem : forall x, In x (unique_desc l) <->
                   Exists (fun part => token_value part = Some x) (split_on "," s)).
  { intros x. rewrite Hin, (parse_parts_ok _ _ _ Ep x). cbn [In]. tauto. }
  split; [exact Hs | split; [apply sorted_gt_nodup, Hs | split; [| exact Hmem]]].
  apply List.Forall_forall. intros x Hx. apply Hmem, List.Exists_exists in Hx as [part [_ Hp]].
  exact (token_value_nonneg _ _ Hp).
Qed.

Lemma parse_offsets_sorted_witness :
  parse_offset_str "3d, 24h,1d" = Ok [259200; 86400] /\
  StronglySorted Z.gt [259200; 86400].
Proof.
  split; [reflexivity |].
  exact (proj1 (parse_offsets_sorted "3d, 24h,1d" [259200; 86400] eq_refl)).
Defined.

(** ** The reminder poll loop *)

Lemma mark_sent_lookup (rid j : Z) (rs : gmap Z reminder) :
  mark_sent rid rs !! j = if decide (rid = j) then set_sent <$> rs !! j else rs !! j.
Proof.
  unfold mark_sent. case_decide as Hj.
  - subst. rewrite lookup_alter. rewrite decide_True by reflexivity. reflexivity.
  - apply lookup_alter_ne. exact Hj.
Qed.

Lemma process_rows_lookup (d : Z -> reminder -> project -> bool) (rows : list poll_row) :
  forall rs log j,
  (fst (process_rows d rows rs log)) !! j =
    if bool_decide (j ∈ row_id <$> rows) then set_sent <$> rs !! j else rs !! j.
Proof.
  induction rows as [| [[rid r] p] rows IH]; intros rs log j; cbn [process_rows].
  - rewrite bool_decide_false; [reflexivity |]. cbn. set_solver.
  - rewrite IH, mark_sent_lookup, fmap_cons. cbn [row_id].
    case_decide; repeat case_bool_decide; subst; try set_solver;
      destruct (rs !! j); reflexivity.
Qed.

Lemma process_rows_log (d : Z -> reminder -> project -> bool) (rows : list poll_row) :
  forall rs log, (snd (process_rows d rows rs log)) = log ++ concat (row_events d <$> rows).
Proof.
  induction rows as [| [[rid r] p] rows IH]; intros rs log; cbn [process_rows].
  - rewrite app_nil_r. reflexivity.
  - rewrite IH, fmap_cons. cbn [concat row_events]. rewrite <- app_assoc. reflexivity.
Qed.

Lemma omap_attempted_events (d : Z -> reminder -> project -> bool) (rows : list poll_row) :
  omap attempted (concat (row_events d <$> rows)) = row_id <$> rows.
Proof.
  induction rows as [| [[rid r] p] rows IH]; [reflexivity |].
  rewrite fmap_cons. cbn [concat row_events]. rewrite omap_app, IH.
  destruct (d rid r p); reflexivity.
Qed.

Lemma omap_marked_events (d : Z -> reminder -> project -> bool) (rows : list poll_row) :
  omap marked (concat (row_events d <$> rows)) = row_id <$> rows.
Proof.
  induction rows as [| [[rid r] p] rows IH]; [reflexivity |].
  rewrite fmap_cons. cbn [concat row_events]. rewrite omap_app, IH.
  destruct (d rid r p); reflexivity.
Qed.

Lemma insert_row_perm (x : poll_row) (l : list poll_row) : insert_row x l ≡ₚ x :: l.
Proof.
  induction l as [| y l IH]; cbn; [reflexivity |].
  destruct (row_ts x <=? row_ts y); [reflexivity |].
  rewrite IH. apply perm_swap.
Qed.

Lemma sort_rows_perm (l : list poll_row) : sort_rows l ≡ₚ l.
Proof.
  induction l as [| x l IH]; cbn; [reflexivity |].
  rewrite insert_row_perm, IH. reflexivity.
Qed.

Lemma select_row_spec (st : store) (now k : Z) (r : reminder) (row : poll_row) :
  select_row st now (k, r) = Some row ->
  exists p, row = (k, r, p) /\ r_sent r = false /\ now - 60 <= r_ts r <= now + 30 /\
            projects st !! r_project r = Some p.
Proof.
  unfold select_row.
  destruct (r_sent r) eqn:Hs; cbn [negb andb]; [discriminate |].
  destruct (Z.leb_spec (now - 60) (r_ts r)); cbn [andb]; [| discriminate].
  destruct (Z.leb_spec (r_ts r) (now + 30)); [| discriminate].
  destruct (projects st !! r_project r) as [p |] eqn:Hp; [| discriminate].
  intros Hrow. injection Hrow as <-. exists p. repeat split; auto.
Qed.

Lemma due_rows_spec (st : store) (now rid : Z) (r : reminder) (p : project) :
  (rid, r, p) ∈ due_rows st now ->
  reminders st !! rid = Some r /\ r_sent r = false /\ now - 60 <= r_ts r <= now + 30 /\
  projects st !! r_project r = Some p.
Proof.
  unfold due_rows. rewrite sort_rows_perm, list_elem_of_omap.
  intros [[k r'] [Hin Hsel]].
  apply select_row_spec in Hsel as (p' & Heq & Hs & Hw & Hp).
  injection Heq as <- <- <-. apply elem_of_map_to_list in Hin. auto.
Qed.

Lemma omap_select_nodup (st : store) (now : Z) (l : list (Z * reminder)) :
  NoDup l.*1 -> NoDup (row_id <$> omap (select_row st now) l).
Proof.
  induction l as [| [k r] l IH]; intros Hn; [constructor |].
  rewrite fmap_cons in Hn. apply NoDup_cons in Hn as [Hk Hn].
  change (omap (select_row st now) ((k, r) :: l)) with
    (match select_row st now (k, r) with
     | Some y => y :: omap (select_row st now) l
     | None => omap (select_row st now) l
     end).
  destruct (select_row st now (k, r)) as [row |] eqn:Hsel; [| apply IH, Hn].
  pose proof (select_row_spec _ _ _ _ _ Hsel) as (p & -> & _).
  rewrite fmap_cons. apply NoDup_cons. split; [| apply IH, Hn].
  cbn [row_id]. intros Hin. apply Hk.
  apply list_elem_of_fmap in Hin as [row' [Hid Hrow']].
  apply list_elem_of_omap in Hrow' as [[k' r'] [Hin' Hsel']].
  pose proof (select_row_spec _ _ _ _ _ Hsel') as (p' & -> & _).
  cbn [row_id] in Hid. subst k'. apply list_elem_of_fmap. exists (k, r'). split; done.
Qed.

Lemma due_rows_nodup (st : store) (now : Z) : NoDup (row_id <$> due_rows st now).
Proof.
  unfold due_rows. rewrite sort_rows_perm.
  apply omap_select_nodup, NoDup_fst_map_to_list.
Qed.

Lemma reminder_loop_eq (d : Z -> reminder -> project -> bool) (now : Z) (st : store) :
  reminder_loop d now st =
    (set_reminders st (fst (process_rows d (due_rows st now) (reminders st) [])) (next_rid st),
     (snd (process_rows d (due_rows st now) (reminders st) []))).
Proof.
  unfold reminder_loop. destruct (due_rows st now) as [| row rows].
  - destruct st; reflexivity.
  - destruct (process_rows d (row :: rows) (reminders st) []); reflexivity.
Qed.

Lemma reminder_loop_step (d : Z -> reminder -> project -> bool) (now : Z) (st : store) :
  (forall rid, sent_in (reminders st) rid ->
     (rid ∉ omap attempted (snd (reminder_loop d now st))) /\
     sent_in (reminders (fst (reminder_loop d now st))) rid) /\
  (forall rid, rid ∈ omap attempted (snd (reminder_loop d now st)) ->
     sent_in (reminders (fst (reminder_loop d now st))) rid) /\
  NoDup (omap attempted (snd (reminder_loop d now st))).
Proof.
  rewrite reminder_loop_eq. cbn [fst snd reminders set_reminders].
  rewrite process_rows_log, app_nil_l, omap_attempted_events.
  split; [| split; [| apply due_rows_nodup]].
  - intros rid Hsent. split.
    + intros Hin. apply list_elem_of_fmap in Hin as [[[rid' r] p] [-> Hrow]].
      cbn [row_id] in Hsent |- *.
      destruct (due_rows_spec _ _ _ _ _ Hrow) as (Hr & Hns & _).
      specialize (Hsent r Hr). congruence.
    + intros r. rewrite process_rows_lookup. case_bool_decide.
      * destruct (reminders st !! rid); cbn; intros Hr; [injection Hr as <-; reflexivity | discriminate].
      * exact (Hsent r).
  - intros rid Hin r. rewrite process_rows_lookup, bool_decide_true by exact Hin.
    destruct (reminders st !! rid); cbn; intros Hr; [injection Hr as <-; reflexivity | discriminate].
Qed.

Lemma run_polls_inv (cycles : list (Z * (Z -> reminder -> project -> bool))) :
  forall st,
  NoDup (omap attempted (snd (run_polls cycles st))) /\
  (forall rid, sent_in (reminders st) rid ->
     (rid ∉ omap attempted (snd (run_polls cycles st))) /\
     sent_in (reminders (fst (run_polls cycles st))) rid).
Proof.
  induction cycles as [| [now d] cycles IH]; intros st.
  - split; [constructor |]. intros rid Hs. split; [cbn; set_solver | exact Hs].
  - cbn [run_polls].
    destruct (reminder_loop_step d now st) as (Hold & Hnew & Hnd).
    destruct (reminder_loop d now st) as [st1 log1] eqn:E1. cbn [fst snd] in *.
    destruct (IH st1) as [Hnd2 Hkeep2].
    destruct (run_polls cycles st1) as [st2 log2] eqn:E2. cbn [fst snd] in *.
    rewrite omap_app. split.
    + apply NoDup_app. split; [exact Hnd | split; [| exact Hnd2]].
      intros rid Hin. exact (proj1 (Hkeep2 rid (Hnew rid Hin))).
    + intros rid Hs. destruct (Hold rid Hs) as [Hn1 Hs1].
      destruct (Hkeep2 rid Hs1) as [Hn2 Hs2]. split; [| exact Hs2].
      rewrite elem_of_app. tauto.
Qed.

(** C2: in one poll cycle, whatever each delivery does, every selected row
    produces its delivery attempt followed by its [sent = 1] update before
    the next row is processed; every selected row is marked exactly once and
    is [sent] afterwards.  Over any sequence of poll cycles of one process,
    no reminder is attempted twice. *)
Theorem poll_marks_each_row_once (d : Z -> reminder -> project -> bool) (now : Z)
    (st : store) :
  (snd (reminder_loop d now st)) = concat (row_events d <$> due_rows st now) /\
  omap attempted (snd (reminder_loop d now st)) = row_id <$> due_rows st now /\
  omap marked (snd (reminder_loop d now st)) = row_id <$> due_rows st now /\
  NoDup (row_id <$> due_rows st now) /\
  (forall rid r p, (rid, r, p) ∈ due_rows st now ->
     reminders (fst (reminder_loop d now st)) !! rid = Some (set_sent r)) /\
  (forall cycles, NoDup (omap attempted (snd (run_polls cycles st)))).
Proof.
  rewrite reminder_loop_eq. cbn [fst snd reminders set_reminders].
  rewrite process_rows_log, app_nil_l.
  split; [reflexivity |].
  split; [apply omap_attempted_events |].
  split; [apply omap_marked_events |].
  split; [apply due_rows_nodup |].
  split; [| intros cycles; apply (run_polls_inv cycles st)].
  intros rid r p Hrow. rewrite process_rows_lookup.
  rewrite bool_decide_true by (apply list_elem_of_fmap; exists (rid, r, p); done).
  rewrite (proj1 (due_rows_spec _ _ _ _ _ Hrow)). reflexivity.
Qed.

(** ** The digest loop *)

Lemma digest_guild_spec (env : digest_env) (now : Z) (st : store) (gid : Z)
    (cache : gset digest_key) :
  cache ⊆ fst (digest_guild env now st gid cache) /\
  (snd (digest_guild env now st gid cache) = [] \/
   exists ev, snd (digest_guild env now st gid cache) = [ev] /\
     (event_key ev ∉ cache) /\ event_key ev ∈ fst (digest_guild env now st gid cache)).
Proof.
  unfold digest_guild.
  destruct (configs st !! gid) as [cfg |]; [| cbn; split; [reflexivity | left; reflexivity]].
  destruct (c_channel cfg) as [[| ch | ch] |]; cbn [fst snd];
    try (split; [reflexivity | left; reflexivity]);
  (destruct (digest_time env _) as [h m];
   destruct (_ && _); [| cbn; split; [reflexivity | left; reflexivity]];
   case_bool_decide as Hin; [cbn; split; [reflexivity | left; reflexivity] |];
   destruct (negb (channel_ok env _));
   [ cbn; split; [set_solver | right; eexists; split; [reflexivity | cbn; set_solver]]
   | destruct (upcoming _ _ _ _); cbn;
     [ split; [set_solver | left; reflexivity]
     | split; [set_solver | right; eexists; split; [reflexivity | cbn; set_solver]]]]).
Qed.

Lemma digest_loop_spec (env : digest_env) (now : Z) (st : store) (guilds : list Z) :
  forall cache,
  cache ⊆ fst (digest_loop env now st guilds cache) /\
  NoDup (event_key <$> snd (digest_loop env now st guilds cache)) /\
  (forall ev, ev ∈ snd (digest_loop env now st guilds cache) ->
     (event_key ev ∉ cache) /\ event_key ev ∈ fst (digest_loop env now st guilds cache)).
Proof.
  induction guilds as [| gid guilds IH]; intros cache; cbn [digest_loop].
  - cbn. split; [reflexivity | split; [constructor | set_solver]].
  - destruct (digest_guild_spec env now st gid cache) as [Hsub1 Hlog1].
    destruct (digest_guild env now st gid cache) as [cache1 log1]. cbn [fst snd] in *.
    destruct (IH cache1) as (Hsub2 & Hnd2 & Hin2).
    destruct (digest_loop env now st guilds cache1) as [cache2 log2]. cbn [fst snd] in *.
    destruct Hlog1 as [-> | (ev & -> & Hnot & Hin)].
    + cbn. split; [set_solver | split; [exact Hnd2 |]].
      intros ev' Hev'. destruct (Hin2 ev' Hev'). set_solver.
    + cbn [app]. rewrite fmap_cons. split; [set_solver | split].
      * apply NoDup_cons. split; [| exact Hnd2].
        intros Hk. apply list_elem_of_fmap in Hk as [ev' [Hk Hev']].
        destruct (Hin2 ev' Hev') as [Hn _]. rewrite <- Hk in Hn. exact (Hn Hin).
      * intros ev' Hev'. apply elem_of_cons in Hev' as [-> | Hev']; [set_solver |].
        destruct (Hin2 ev' Hev'). set_solver.
Qed.

Lemma run_digests_spec (runs : list (digest_env * Z * store * list Z)) :
  forall cache,
  cache ⊆ fst (run_digests runs cache) /\
  NoDup (event_key <$> snd (run_digests runs cache)) /\
  (forall ev, ev ∈ snd (run_digests runs cache) ->
     (event_key ev ∉ cache) /\ event_key ev ∈ fst (run_digests runs cache)).
Proof.
  induction runs as [| [[[env now] st] guilds] runs IH]; intros cache; cbn [run_digests].
  - cbn. split; [reflexivity | split; [constructor | set_solver]].
  - destruct (digest_loop_spec env now st guilds cache) as (Hsub1 & Hnd1 & Hin1).
    destruct (digest_loop env now st guilds cache) as [cache1 log1]. cbn [fst snd] in *.
    destruct (IH cache1) as (Hsub2 & Hnd2 & Hin2).
    destruct (run_digests runs cache1) as [cache2 log2]. cbn [fst snd] in *.
    rewrite fmap_app. split; [set_solver | split].
    + apply NoDup_app. split; [exact Hnd1 | split; [| exact Hnd2]].
      intros k Hk1 Hk2.
      apply list_elem_of_fmap in Hk1 as [ev1 [-> Hev1]].
      apply list_elem_of_fmap in Hk2 as [ev2 [Hk Hev2]].
      destruct (Hin1 ev1 Hev1) as [_ Hc1]. destruct (Hin2 ev2 Hev2) as [Hn2 _].
      rewrite <- Hk in Hn2. exact (Hn2 Hc1).
    + intros ev Hev. apply elem_of_app in Hev as [Hev | Hev].
      * destruct (Hin1 ev Hev). set_solver.
      * destruct (Hin2 ev Hev). set_solver.
Qed.

Lemma digest_guild_keys (env : digest_env) (now : Z) (st : store) (gid : Z)
    (cache : gset digest_key) (k : digest_key) :
  k ∈ fst (digest_guild env now st gid cache) -> k ∈ cache \/ k.1 = gid.
Proof.
  unfold digest_guild.
  destruct (configs st !! gid) as [cfg |]; [| cbn; left; assumption].
  destruct (c_channel cfg) as [[| ch | ch] |]; cbn [fst]; try (left; assumption);
  (destruct (digest_time env _) as [h m];
   destruct (_ && _); [| cbn; left; assumption];
   case_bool_decide as Hin; [cbn; left; assumption |];
   destruct (negb (channel_ok env _));
   [| destruct (upcoming _ _ _ _)]; cbn [fst];
   intros Hk; apply elem_of_union in Hk as [Hk | Hk];
   [apply elem_of_singleton in Hk; subst k; right; reflexivity | left; exact Hk
   | apply elem_of_singleton in Hk; subst k; right; reflexivity | left; exact Hk
   | apply elem_of_singleton in Hk; subst k; right; reflexivity | left; exact Hk]).
Qed.

Lemma digest_loop_event (env : digest_env) (now : Z) (st : store) (g : Z)
    (key : digest_key) (ev : digest_event) :
  key.1 = g ->
  (forall cache, key ∉ cache -> snd (digest_guild env now st g cache) = [ev]) ->
  forall guilds cache, g ∈ guilds -> key ∉ cache ->
  ev ∈ snd (digest_loop env now st guilds cache).
Proof.
  intros Hkey Hfire guilds. induction guilds as [| gid guilds IH]; intros cache Hg Hc.
  - apply elem_of_nil in Hg. contradiction.
  - cbn [digest_loop].
    pose proof (digest_guild_keys env now st gid cache key) as Hkeys.
    destruct (decide (gid = g)) as [-> | Hne].
    + pose proof (Hfire cache Hc) as Hlog.
      destruct (digest_guild env now st g cache) as [cache1 log1]. cbn [snd] in Hlog. subst log1.
      destruct (digest_loop env now st guilds cache1) as [cache2 log2]. cbn [snd].
      apply elem_of_cons. left. reflexivity.
    + apply elem_of_cons in Hg as [Hg | Hg]; [congruence |].
      destruct (digest_guild env now st gid cache) as [cache1 log1]. cbn [fst] in Hkeys.
      assert (Hc1 : key ∉ cache1) by (intros Hk; destruct (Hkeys Hk); congruence).
      pose proof (IH cache1 Hg Hc1) as Hin.
      destruct (digest_loop env now st guilds cache1) as [cache2 log2]. cbn [snd] in *.
      apply elem_of_app. right. exact Hin.
Qed.

Lemma filter_key_single {A K : Type} `{EqDecision K} (f : A -> K) (l : list A) (x : A) :
  NoDup (f <$> l) -> x ∈ l -> filter (fun y => f y = f x) l = [x].
Proof.
  induction l as [| y l IH]; intros Hnd Hx; [apply elem_of_nil in Hx; contradiction |].
  rewrite fmap_cons in Hnd. apply NoDup_cons in Hnd as [Hy Hnd].
  rewrite filter_cons. apply elem_of_cons in Hx as [-> | Hx].
  - rewrite decide_True by reflexivity. f_equal.
    destruct (filter (fun z => f z = f y) l) as [| z r] eqn:E; [reflexivity | exfalso].
    assert (Hz : z ∈ filter (fun z => f z = f y) l) by (rewrite E; apply elem_of_cons; left; reflexivity).
    apply list_elem_of_filter in Hz as [Hfz Hz].
    apply Hy. rewrite <- Hfz. apply list_elem_of_fmap. exists z. split; [reflexivity | exact Hz].
  - rewrite decide_False; [exact (IH Hnd Hx) |].
    intros Hfy. apply Hy. rewrite Hfy. apply list_elem_of_fmap. exists x. split; [reflexivity | exact Hx].
Qed.

(** C4: over any sequence of digest evaluations of one process, sharing
    [_digest_cache], each (guild, local date) key gets at most one digest
    event: a call of [channel.send], or a failed channel lookup, which is
    the failed attempt of that delivery.  The key enters the cache before
    the attempt and is never removed, whatever the outcome, so a failed
    send is not retried that day.  And when an evaluation reaches a
    configured guild at its digest minute with the key not yet in the
    cache and a project due in the next 7 days, the whole sequence that
    starts with it, however many evaluations follow in the same minute or
    later, has exactly one event for that key: the send when the channel
    resolves, the failed lookup otherwise; the key is then in the cache. *)
Theorem digest_exactly_once (runs : list (digest_env * Z * store * list Z))
    (cache : gset digest_key) (env : digest_env) (now : Z) (st : store) (guilds : list Z)
    (g ch d : Z) (cfg : config) (pid : Z) (prj : project) :
  (NoDup (event_key <$> snd (run_digests runs cache)) /\
   cache ⊆ fst (run_digests runs cache) /\
   (forall ev, ev ∈ snd (run_digests runs cache) ->
      (event_key ev ∉ cache) /\ event_key ev ∈ fst (run_digests runs cache))) /\
  (g ∈ guilds -> configs st !! g = Some cfg -> c_channel cfg = Some ch -> ch <> 0 ->
   let tz := parse_timezone (zone_resolves env)
               (if truthy (c_timezone cfg) then c_timezone cfg else Some "UTC") in
   let hhmm := if truthy (c_digest_time cfg) then default "09:00" (c_digest_time cfg)
               else "09:00" in
   (l_hour (astimezone env tz now), l_minute (astimezone env tz now)) = digest_time env hhmm ->
   l_date (astimezone env tz now) = d ->
   (g, d) ∉ cache ->
   projects st !! pid = Some prj -> p_guild prj = g ->
   now <= p_due prj <= week_end env tz now ->
   filter (fun ev => event_key ev = (g, d))
     (snd (run_digests ((env, now, st, guilds) :: runs) cache)) =
     [if channel_ok env ch then DigestSend g d (send_ok env ch) else DigestChannelError g d] /\
   (g, d) ∈ fst (run_digests ((env, now, st, guilds) :: runs) cache)).
Proof.
  split; [destruct (run_digests_spec runs cache) as (Hsub & Hnd & Hin); auto |].
  intros Hg Hcfg Hch Hch0 tz hhmm Hclk Hd Hc Hprj Hpg Hdue.
  set (ev := if channel_ok env ch then DigestSend g d (send_ok env ch)
             else DigestChannelError g d).
  assert (Hfire : forall cache', (g, d) ∉ cache' -> snd (digest_guild env now st g cache') = [ev]).
  { intros cache' Hc'. unfold digest_guild. rewrite Hcfg, Hch.
    destruct ch as [| ch' | ch']; [congruence | |];
    (fold tz hhmm; destruct (digest_time env hhmm) as [h m] eqn:Ht;
     injection Hclk as Hh Hm; rewrite Hh, Hm, !Z.eqb_refl; cbn [andb];
     rewrite Hd; rewrite bool_decide_false by exact Hc';
     unfold ev; destruct (channel_ok env _); cbn [negb]; [| reflexivity];
     assert (Hup : (pid, prj) ∈ upcoming st g now (week_end env tz now))
       by (apply list_elem_of_filter; split;
           [cbn; split; [exact Hpg | exact Hdue] | apply elem_of_map_to_list; exact Hprj]);
     destruct (upcoming st g now (week_end env tz now)); [apply elem_of_nil in Hup; contradiction |];
     reflexivity). }
  pose proof (digest_loop_event env now st g (g, d) ev eq_refl Hfire guilds cache Hg Hc) as Hev.
  destruct (run_digests_spec ((env, now, st, guilds) :: runs) cache) as (_ & Hnd & Hin).
  assert (Hev' : ev ∈ snd (run_digests ((env, now, st, guilds) :: runs) cache)).
  { cbn [run_digests].
    destruct (digest_loop env now st guilds cache) as [cache1 log1]. cbn [snd] in Hev.
    destruct (run_digests runs cache1) as [cache2 log2]. cbn [snd].
    apply elem_of_app. left. exact Hev. }
  assert (Hk : event_key ev = (g, d)) by (unfold ev; destruct (channel_ok env ch); reflexivity).
  split.
  - rewrite <- Hk. exact (filter_key_single event_key _ ev Hnd Hev').
  - rewrite <- Hk. exact (proj2 (Hin ev Hev')).
Qed.

Lemma digest_exactly_once_witness :
  filter (fun ev => event_key ev = (1, 0))
    (snd (run_digests [(utc_env, 32400, digest_store, [1]);
                       (utc_env, 32430, digest_store, [1])] ∅)) =
    [DigestSend 1 0 true] /\
  (1, 0) ∈ fst (run_digests [(utc_env, 32400, digest_store, [1]);
                             (utc_env, 32430, digest_store, [1])] ∅).
Proof.
  exact (proj2 (digest_exactly_once [(utc_env, 32430, digest_store, [1])] ∅
                  utc_env 32400 digest_store [1] 1 5 0
                  (mkConfig (Some "UTC") (Some 5) (Some "09:00"))
                  1 (mkProject 1 1 "p" "" 36000 "UTC" 2 5 3 0))
           ltac:(apply elem_of_cons; left; reflexivity)
           eq_refl eq_refl ltac:(discriminate) eq_refl eq_refl
           ltac:(apply not_elem_of_empty) eq_refl eq_refl ltac:(vm_compute; split; discriminate)).
Defined.

(* ================================================================== *)
(** * Further properties of the commands *)

(** ** Reminder timestamps *)

Lemma reminder_candidates_bounds (now due : Z) (offs : list Z) :
  Forall (fun ts => now + 30 < ts) (reminder_candidates now due offs) /\
  (Forall (fun o => 0 < o) offs -> Forall (fun ts => ts < due) (reminder_candidates now due offs)) /\
  (Forall (fun o => 0 <= o) offs -> Forall (fun ts => ts <= due) (reminder_candidates now due offs)).
Proof.
  induction offs as [| o offs IH]; cbn [reminder_candidates]; [repeat split; constructor |].
  destruct IH as (IH1 & IH2 & IH3).
  destruct (Z.ltb_spec (now + 30) (due - o)); (split; [| split]);
    try (intros Hf; apply Forall_cons in Hf as [Ho Hf]);
    try (constructor; [lia |]); auto.
Qed.

Lemma reminder_candidates_app (now due : Z) (offs : list Z) :
  reminder_candidates now due offs = filter (fun ts => now + 30 < ts) ((fun o => due - o) <$> offs).
Proof.
  induction offs as [| o offs IH]; [reflexivity |]. cbn [reminder_candidates].
  rewrite fmap_cons, filter_cons, IH.
  destruct (Z.ltb_spec (now + 30) (due - o)); case_decide; (reflexivity || lia).
Qed.

Lemma with_fallback_bounds (now due : Z) (l : list Z) :
  now + 60 < due ->
  Forall (fun ts => now + 30 < ts) l ->
  with_fallback now due l <> [] /\
  Forall (fun ts => now + 30 < ts) (with_fallback now due l) /\
  (Forall (fun ts => ts < due) l -> Forall (fun ts => ts < due) (with_fallback now due l)).
Proof.
  intros Hdue Hl. destruct l as [| x l]; cbn [with_fallback].
  - destruct (Z.ltb_spec (Z.max (due - 300) (now + 60)) due); [| lia].
    split; [discriminate |]. split; [constructor; [lia | constructor] |].
    intros _. constructor; [lia | constructor].
  - split; [discriminate | split; [exact Hl | auto]].
Qed.

Lemma parse_offset_nonneg (s : string) (offs : list Z) :
  parse_offset_str s = Ok offs -> Forall (fun o => 0 <= o) offs.
Proof.
  unfold parse_offset_str. destruct (parse_parts (split_on "," s) []) as [l |] eqn:Ep;
    [| discriminate].
  intros H. injection H as <-. apply List.Forall_forall. intros x Hx.
  apply (proj2 (unique_desc_spec l)) in Hx.
  apply (parse_parts_ok _ _ _ Ep x) in Hx as [[] | Hx].
  apply List.Exists_exists in Hx as [part [_ Hp]]. exact (token_value_nonneg _ _ Hp).
Qed.

(** ** project_create *)

Lemma project_create_ok (flt : fault) (st st' : store) (g : option Z) (name : string)
    (due now created : Z) (tz : string) (role ch user : Z) (descr custom : option string)
    (pid : Z) (tss : list Z) :
  project_create flt st g name due now created tz role ch user descr custom = (Ok (pid, tss), st') ->
  exists gid offs,
    g = Some gid /\ now + 60 < due /\ flt = NoFault /\
    (if truthy custom then parse_offset_str (default "" custom)
     else Ok (default_offsets now due)) = Ok offs /\
    tss = with_fallback now due (reminder_candidates now due offs) /\
    pid = next_pid st /\
    st' = set_reminders
            (mkStore (<[next_pid st := mkProject (next_pid st) gid name (default "" descr) due tz
                                       role ch user created]> (projects st))
                     (reminders st) (configs st) (next_pid st + 1) (next_rid st))
            (fst (insert_reminders (next_pid st) (truthy custom) tss (reminders st) (next_rid st)))
            (snd (insert_reminders (next_pid st) (truthy custom) tss (reminders st) (next_rid st))).
Proof.
  unfold project_create. destruct g as [gid |]; [| discriminate].
  destruct (Z.leb_spec due (now + 60)); [discriminate |]. cbv zeta.
  destruct (if truthy custom then _ else _) as [offs | e] eqn:Hoffs; [| discriminate].
  destruct flt as [| | | k];
    [| discriminate | discriminate | destruct (insert_reminders _ _ _ _ _); discriminate].
  destruct (insert_reminders _ _ _ _ _) as [rs n] eqn:Hins.
  intros Hpc. injection Hpc as <- <- <-.
  exists gid, offs. cbn [reminders next_rid] in Hins. rewrite Hins. repeat split; auto; lia.
Qed.

(** X1: every reminder timestamp that [project create] schedules is more
    than 30 seconds after [now], whether it comes from custom offsets,
    default offsets or the 5-minute fallback. *)
Theorem create_reminders_after_now (flt : fault) (st st' : store) (g : option Z)
    (name : string) (due now created : Z) (tz : string) (role ch user : Z)
    (descr custom : option string) (pid : Z) (tss : list Z) :
  project_create flt st g name due now created tz role ch user descr custom = (Ok (pid, tss), st') ->
  Forall (fun ts => now + 30 < ts) tss.
Proof.
  intros H. apply project_create_ok in H as (gid & offs & _ & Hdue & _ & _ & -> & _).
  destruct (reminder_candidates_bounds now due offs) as (H1 & _).
  exact (proj1 (proj2 (with_fallback_bounds now due _ Hdue H1))).
Qed.

Lemma create_reminders_after_now_witness :
  project_create NoFault empty_store (Some 1) "p" 7200 0 0 "UTC" 2 3 4 None None =
    (Ok (1, [3600]), snd (project_create NoFault empty_store (Some 1) "p" 7200 0 0 "UTC" 2 3 4
                            None None)) /\
  Forall (fun ts => 0 + 30 < ts) [3600].
Proof.
  split; [reflexivity |].
  exact (create_reminders_after_now NoFault empty_store _ (Some 1) "p" 7200 0 0 "UTC" 2 3 4
           None None 1 [3600] eq_refl).
Defined.

(** X2: without custom offsets, a successful [project create] schedules at
    least one reminder, and every one lies strictly between [now + 30] and
    the due instant. *)
Theorem create_default_reminders_before_due (flt : fault) (st st' : store) (g : option Z)
    (name : string) (due now created : Z) (tz : string) (role ch user : Z)
    (descr custom : option string) (pid : Z) (tss : list Z) :
  truthy custom = false ->
  project_create flt st g name due now created tz role ch user descr custom = (Ok (pid, tss), st') ->
  tss <> [] /\ Forall (fun ts => now + 30 < ts < due) tss.
Proof.
  intros Hc H. apply project_create_ok in H as (gid & offs & _ & Hdue & _ & Hoffs & -> & _).
  rewrite Hc in Hoffs. injection Hoffs as <-.
  destruct (reminder_candidates_bounds now due (default_offsets now due)) as (H1 & H2 & _).
  assert (Hpos : Forall (fun o => 0 < o) (default_offsets now due)).
  { unfold default_offsets. z_cases; repeat constructor; lia. }
  destruct (with_fallback_bounds now due _ Hdue H1) as (Hne & Hlo & Hhi).
  split; [exact Hne |]. apply List.Forall_forall. intros x Hx.
  specialize (Hhi (H2 Hpos)). rewrite List.Forall_forall in Hlo, Hhi.
  specialize (Hhi x Hx). specialize (Hlo x Hx). lia.
Qed.

Lemma create_default_reminders_before_due_witness :
  truthy None = false /\
  project_create NoFault empty_store (Some 1) "p" 7200 0 0 "UTC" 2 3 4 None None =
    (Ok (1, [3600]), snd (project_create NoFault empty_store (Some 1) "p" 7200 0 0 "UTC" 2 3 4
                            None None)) /\
  [3600] <> [].
Proof.
  split; [reflexivity | split; [reflexivity |]].
  exact (proj1 (create_default_reminders_before_due NoFault empty_store _ (Some 1) "p" 7200 0 0
                  "UTC" 2 3 4 None None 1 [3600] eq_refl eq_refl)).
Defined.

(** X3: without custom offsets, when the due instant is more than three
    days and 30 seconds away, [project create] schedules exactly the three
    reminders 3 days, 2 days and 1 day before it. *)
Theorem create_default_three_days (st : store) (gid : Z) (name : string)
    (due now created : Z) (tz : string) (role ch user : Z) (descr : option string) :
  now + 259230 < due ->
  fst (project_create NoFault st (Some gid) name due now created tz role ch user descr None) =
    Ok (next_pid st, [due - 259200; due - 172800; due - 86400]).
Proof.
  intros H. unfold project_create.
  destruct (Z.leb_spec due (now + 60)); [lia |]. cbv zeta. cbn [truthy].
  unfold default_offsets. destruct (Z.leb_spec (3 * 86400) (due - now)); [| lia].
  cbn [reminder_candidates].
  destruct (Z.ltb_spec (now + 30) (due - 3 * 86400)); [| lia].
  destruct (Z.ltb_spec (now + 30) (due - 2 * 86400)); [| lia].
  destruct (Z.ltb_spec (now + 30) (due - 86400)); [| lia].
  cbn [with_fallback]. destruct (insert_reminders _ _ _ _ _). reflexivity.
Qed.

Lemma create_default_three_days_witness :
  0 + 259230 < 864000 /\
  fst (project_create NoFault empty_store (Some 1) "p" 864000 0 0 "UTC" 2 3 4 None None) =
    Ok (1, [604800; 691200; 777600]).
Proof.
  split; [lia |].
  exact (create_default_three_days empty_store 1 "p" 864000 0 0 "UTC" 2 3 4 None ltac:(lia)).
Defined.

(** ** Rows written by [insert_reminders] *)


Lemma insert_reminders_lt (pid : Z) (c : bool) (tss : list Z) (rs : gmap Z reminder) (next k : Z) :
  k < next -> fst (insert_reminders pid c tss rs next) !! k = rs !! k.
Proof.
  revert rs next. induction tss as [| ts tss IH]; intros rs next Hk; cbn [insert_reminders]; [reflexivity |].
  rewrite IH by lia. apply lookup_insert_ne. lia.
Qed.

Lemma insert_reminders_at (pid : Z) (c : bool) (tss : list Z) (rs : gmap Z reminder) (next : Z)
    (i : nat) (ts : Z) :
  tss !! i = Some ts ->
  fst (insert_reminders pid c tss rs next) !! (next + Z.of_nat i) =
    Some (mkReminder (next + Z.of_nat i) pid ts false c None).
Proof.
  revert rs next i. induction tss as [| t tss IH]; intros rs next i Hi; [discriminate |].
  cbn [insert_reminders]. destruct i as [| i]; cbn in Hi.
  - injection Hi as <-. rewrite insert_reminders_lt by lia.
    replace (next + Z.of_nat 0) with next by lia. apply lookup_insert_eq.
  - replace (next + Z.of_nat (S i)) with (next + 1 + Z.of_nat i) by lia. exact (IH _ _ _ Hi).
Qed.

Lemma add_reminder_loop_eq (pid due now : Z) (offs : list Z) (rs : gmap Z reminder) (next : Z)
    (ins : list Z) :
  add_reminder_loop pid due now offs rs next ins =
    (fst (insert_reminders pid true (reminder_candidates now due offs) rs next),
     snd (insert_reminders pid true (reminder_candidates now due offs) rs next),
     ins ++ reminder_candidates now due offs).
Proof.
  revert rs next ins. induction offs as [| o offs IH]; intros rs next ins.
  - cbn. rewrite app_nil_r. reflexivity.
  - cbn [add_reminder_loop reminder_candidates].
    destruct (Z.ltb_spec (now + 30) (due - o)); rewrite IH; [| reflexivity].
    cbn [insert_reminders]. rewrite <- app_assoc. reflexivity.
Qed.



(** ** project_add_reminder *)

(** X5: a successful [add-reminder] names a project of the invoking guild;
    it reports a non-empty list of timestamps, each more than 30 seconds
    after [now] and not after the project's due instant, and stores each
    as an unsent custom reminder of that project under consecutive fresh
    ids, leaving existing rows unchanged. *)
Theorem add_reminder_ok (st st' : store) (g : option Z) (pid : Z) (offset : string) (now : Z)
    (ins : list Z) :
  project_add_reminder st g pid offset now = (Ok ins, st') ->
  exists prj,
    projects st !! pid = Some prj /\ g = Some (p_guild prj) /\ ins <> [] /\
    Forall (fun ts => now + 30 < ts <= p_due prj) ins /\
    (forall (i : nat) ts, ins !! i = Some ts ->
       reminders st' !! (next_rid st + Z.of_nat i) =
         Some (mkReminder (next_rid st + Z.of_nat i) pid ts false true None)) /\
    (forall k, k < next_rid st -> reminders st' !! k = reminders st !! k) /\
    projects st' = projects st /\ configs st' = configs st.
Proof.
  unfold project_add_reminder.
  destruct (projects st !! pid) as [prj |] eqn:Hp; [| discriminate].
  case_bool_decide as Hg; [| discriminate].
  destruct (parse_offset_str offset) as [offs | e] eqn:Ho; [| discriminate].
  rewrite add_reminder_loop_eq. cbn [app].
  pose proof (insert_reminders_at pid true (reminder_candidates now (p_due prj) offs)
                (reminders st) (next_rid st)) as Hat.
  pose proof (insert_reminders_lt pid true (reminder_candidates now (p_due prj) offs)
                (reminders st) (next_rid st)) as Hlt.
  destruct (reminder_candidates now (p_due prj) offs) as [| t ts] eqn:Hc; [discriminate |].
  intros Hr. injection Hr as <- <-. exists prj.
  destruct (reminder_candidates_bounds now (p_due prj) offs) as (H1 & _ & H3).
  specialize (H3 (parse_offset_nonneg _ _ Ho)). rewrite Hc in H1, H3.
  split; [reflexivity |]. split; [exact Hg |]. split; [discriminate |].
  split.
  { apply List.Forall_forall. intros x Hx.
    rewrite List.Forall_forall in H1, H3. specialize (H1 x Hx). specialize (H3 x Hx). lia. }
  cbn [set_reminders reminders projects configs].
  split; [intros i x Hi; exact (Hat i x Hi) |].
  split; [intros k Hk; exact (Hlt k Hk) |].
  split; reflexivity.
Qed.

Lemma add_reminder_ok_witness :
  exists prj,
    projects (snd (project_create NoFault empty_store (Some 1) "p" 7200 0 0 "UTC" 2 3 4 None None))
      !! 1 = Some prj /\ Some 1 = Some (p_guild prj) /\ [3600] <> [] /\
    Forall (fun ts => 0 + 30 < ts <= p_due prj) [3600] /\
    (forall (i : nat) ts, [3600] !! i = Some ts ->
       reminders (snd (project_add_reminder
          (snd (project_create NoFault empty_store (Some 1) "p" 7200 0 0 "UTC" 2 3 4 None None))
          (Some 1) 1 "1h" 0)) !! (2 + Z.of_nat i) =
         Some (mkReminder (2 + Z.of_nat i) 1 ts false true None)) /\
    (forall k, k < 2 ->
       reminders (snd (project_add_reminder
          (snd (project_create NoFault empty_store (Some 1) "p" 7200 0 0 "UTC" 2 3 4 None None))
          (Some 1) 1 "1h" 0)) !! k =
       reminders (snd (project_create NoFault empty_store (Some 1) "p" 7200 0 0 "UTC" 2 3 4
                         None None)) !! k) /\
    projects (snd (project_add_reminder
          (snd (project_create NoFault empty_store (Some 1) "p" 7200 0 0 "UTC" 2 3 4 None None))
          (Some 1) 1 "1h" 0)) =
      projects (snd (project_create NoFault empty_store (Some 1) "p" 7200 0 0 "UTC" 2 3 4
                       None None)) /\
    configs (snd (project_add_reminder
          (snd (project_create NoFault empty_store (Some 1) "p" 7200 0 0 "UTC" 2 3 4 None None))
          (Some 1) 1 "1h" 0)) =
      configs (snd (project_create NoFault empty_store (Some 1) "p" 7200 0 0 "UTC" 2 3 4
                      None None)).
Proof.
  exact (add_reminder_ok
           (snd (project_create NoFault empty_store (Some 1) "p" 7200 0 0 "UTC" 2 3 4 None None))
           _ (Some 1) 1 "1h" 0 [3600] eq_refl).
Defined.

(** X6: a failed [add-reminder] (project not found in the guild, malformed
    offset, or no reminder more than 30 seconds ahead) leaves the whole
    store unchanged. *)
Theorem add_reminder_err_unchanged (st st' : store) (g : option Z) (pid : Z) (offset : string)
    (now : Z) (e : error) :
  project_add_reminder st g pid offset now = (Err e, st') -> st' = st.
Proof.
  unfold project_add_reminder.
  destruct (projects st !! pid) as [prj |]; [| congruence].
  case_bool_decide; [| congruence].
  destruct (parse_offset_str offset) as [offs | e'] ; [| congruence].
  rewrite add_reminder_loop_eq. cbn [app].
  destruct (reminder_candidates now (p_due prj) offs) eqn:Hc; [| discriminate].
  intros Hr. injection Hr as _ <-. destruct st. reflexivity.
Qed.

Lemma add_reminder_err_unchanged_witness :
  snd (project_add_reminder
         (snd (project_create NoFault empty_store (Some 1) "p" 7200 0 0 "UTC" 2 3 4 None None))
         (Some 1) 1 "3d" 0) =
    snd (project_create NoFault empty_store (Some 1) "p" 7200 0 0 "UTC" 2 3 4 None None).
Proof.
  exact (add_reminder_err_unchanged
           (snd (project_create NoFault empty_store (Some 1) "p" 7200 0 0 "UTC" 2 3 4 None None))
           _ (Some 1) 1 "3d" 0 NoValidReminder eq_refl).
Defined.

(** ** _reminder_loop *)

(** X9: one poll sets [sent = 1] on exactly the rows it selected, keeping
    their other columns, and leaves every other reminder row, the projects,
    the guild configs and the id counters unchanged. *)
Theorem poll_changes_only_selected (d : Z -> reminder -> project -> bool) (now : Z) (st : store) :
  let st' := fst (reminder_loop d now st) in
  (forall rid r p, (rid, r, p) ∈ due_rows st now -> reminders st' !! rid = Some (set_sent r)) /\
  (forall rid, (forall r p, (rid, r, p) ∉ due_rows st now) ->
     reminders st' !! rid = reminders st !! rid) /\
  projects st' = projects st /\ configs st' = configs st /\
  next_pid st' = next_pid st /\ next_rid st' = next_rid st.
Proof.
  cbv zeta. rewrite reminder_loop_eq. cbn [fst set_reminders reminders projects configs next_pid next_rid].
  split; [| split; [| repeat split]].
  - intros rid r p Hin. rewrite process_rows_lookup.
    rewrite bool_decide_true by (apply list_elem_of_fmap; exists (rid, r, p); split; [reflexivity | exact Hin]).
    apply due_rows_spec in Hin as (Hr & _). rewrite Hr. reflexivity.
  - intros rid Hn. rewrite process_rows_lookup.
    rewrite bool_decide_false; [reflexivity |].
    intros Hin. apply list_elem_of_fmap in Hin as [[[k r] p] [Hk Hin]].
    cbn [row_id] in Hk. subst k. exact (Hn r p Hin).
Qed.

(** ** The FOREIGN KEY of [reminders] *)

Lemma insert_reminders_refs (pid : Z) (c : bool) (tss : list Z) (P : gmap Z project) :
  forall rs next,
  map_Forall (fun _ r => is_Some (P !! r_project r)) rs -> is_Some (P !! pid) ->
  map_Forall (fun _ r => is_Some (P !! r_project r)) (fst (insert_reminders pid c tss rs next)).
Proof.
  induction tss as [| ts tss IH]; intros rs next Hrs Hp; cbn [insert_reminders]; [exact Hrs |].
  apply IH; [| exact Hp]. apply map_Forall_insert_2; [exact Hp | exact Hrs].
Qed.

Lemma refs_ok_mono (P P' : gmap Z project) (rs : gmap Z reminder) :
  (forall k, is_Some (P !! k) -> is_Some (P' !! k)) ->
  map_Forall (fun _ r => is_Some (P !! r_project r)) rs ->
  map_Forall (fun _ r => is_Some (P' !! r_project r)) rs.
Proof.
  intros HP Hrs. apply map_Forall_lookup. intros k r Hr. apply HP.
  exact (proj1 (map_Forall_lookup _ rs) Hrs k r Hr).
Qed.

(** X14: every command and the poll loop keep the FOREIGN KEY of
    [reminders]: if every reminder row references an existing project
    before, it still does after [project create] (whichever statement
    fails), [add-reminder], [project delete] (through ON DELETE CASCADE),
    one poll, [deadlines configure] and [deadlines timezone]. *)
Theorem commands_keep_refs (st : store) :
  refs_ok st ->
  (forall flt g name due now created tz role ch user descr custom,
     refs_ok (snd (project_create flt st g name due now created tz role ch user descr custom))) /\
  (forall g pid offset now, refs_ok (snd (project_add_reminder st g pid offset now))) /\
  (forall g pid, refs_ok (snd (project_delete st g pid))) /\
  (forall d now, refs_ok (fst (reminder_loop d now st))) /\
  (forall zr gid ch t tz, refs_ok (snd (deadlines_configure zr st gid ch t tz))) /\
  (forall zr gid tz, refs_ok (snd (deadlines_timezone zr st gid tz))).
Proof.
  unfold refs_ok. intros Href. split; [| split; [| split; [| split; [| split]]]].
  - intros flt g name due now created tz role ch user descr custom. unfold project_create.
    destruct g as [gid |]; [| exact Href].
    destruct (due <=? now + 60); [exact Href |]. cbv zeta.
    destruct (if truthy custom then _ else _) as [offs |]; [| exact Href].
    assert (Hmono : map_Forall (fun _ r => is_Some
              (<[next_pid st := mkProject (next_pid st) gid name (default "" descr) due tz role ch
                                 user created]> (projects st) !! r_project r)) (reminders st)).
    { apply (refs_ok_mono (projects st)); [| exact Href].
      intros k Hk. apply lookup_insert_is_Some'. right. exact Hk. }
    assert (Hpid : is_Some (<[next_pid st := mkProject (next_pid st) gid name (default "" descr)
                              due tz role ch user created]> (projects st) !! next_pid st))
      by (apply lookup_insert_is_Some'; left; reflexivity).
    destruct flt as [| | | k]; [| exact Href | exact Hmono |].
    + pose proof (insert_reminders_refs (next_pid st) (truthy custom)
                    (with_fallback now due (reminder_candidates now due offs)) _ (reminders st)
                    (next_rid st) Hmono Hpid) as Hins.
      destruct (insert_reminders _ _ _ _ _) as [rs n]. exact Hins.
    + pose proof (insert_reminders_refs (next_pid st) (truthy custom)
                    (firstn k (with_fallback now due (reminder_candidates now due offs))) _
                    (reminders st) (next_rid st) Hmono Hpid) as Hins.
      destruct (insert_reminders _ _ _ _ _) as [rs n]. exact Hins.
  - intros g pid offset now. unfold project_add_reminder.
    destruct (projects st !! pid) as [prj |] eqn:Hp; [| exact Href].
    case_bool_decide; [| exact Href].
    destruct (parse_offset_str offset) as [offs |]; [| exact Href].
    rewrite add_reminder_loop_eq.
    pose proof (insert_reminders_refs pid true (reminder_candidates now (p_due prj) offs)
                  (projects st) (reminders st) (next_rid st) Href (ex_intro _ prj Hp)) as Hins.
    cbn [app]. destruct (reminder_candidates now (p_due prj) offs); exact Hins.
  - intros g pid. unfold project_delete.
    destruct (projects st !! pid) as [prj |]; [| exact Href].
    case_bool_decide; [| exact Href]. cbn [snd projects reminders].
    apply map_Forall_lookup. intros k r Hr.
    apply map_lookup_filter_Some in Hr as [Hr Hn]. cbn in Hn.
    rewrite lookup_delete_ne by congruence.
    exact (proj1 (map_Forall_lookup _ _) Href k r Hr).
  - intros d now. rewrite reminder_loop_eq. cbn [fst set_reminders projects reminders].
    apply map_Forall_lookup. intros k r Hr. rewrite process_rows_lookup in Hr.
    case_bool_decide.
    + destruct (reminders st !! k) as [r0 |] eqn:Hr0; [| discriminate].
      injection Hr as <-. exact (proj1 (map_Forall_lookup _ _) Href k r0 Hr0).
    + exact (proj1 (map_Forall_lookup _ _) Href k r Hr).
  - intros zr gid ch t tz. unfold deadlines_configure.
    destruct (negb (strptime_hhmm_ok t)); exact Href.
  - intros zr gid tz. exact Href.
Qed.

Lemma commands_keep_refs_witness :
  refs_ok empty_store /\ refs_ok (snd (project_delete empty_store (Some 1) 1)).
Proof.
  assert (H : refs_ok empty_store) by (apply map_Forall_empty).
  split; [exact H |].
  exact (proj1 (proj2 (proj2 (commands_keep_refs empty_store H))) (Some 1) 1).
Defined.

(** ** deadlines_configure and deadlines_timezone *)

Lemma is_digit_val (c : ascii) : is_digit c = true -> 0 <= digit_val c <= 9.
Proof.
  unfold is_digit, digit_val. intros H.
  apply andb_true_iff in H as [H1 H2]. apply Nat.leb_le in H1, H2. lia.
Qed.

Lemma hour_ok_value (s : string) :
  hour_ok s = true ->
  s <> "" /\ forallb is_digit (list_ascii_of_string s) = true /\ 0 <= digits_value s <= 23.
Proof.
  unfold hour_ok. destruct s as [| a [| b [| c r]]]; try discriminate.
  - intros Ha. split; [discriminate |]. cbn. rewrite Ha. split; [reflexivity |].
    unfold digits_value. cbn. pose proof (is_digit_val a Ha). lia.
  - intros H. apply andb_true_iff in H as [H Hr]. apply andb_true_iff in H as [Ha Hb].
    split; [discriminate |]. cbn. rewrite Ha, Hb. split; [reflexivity |].
    unfold digits_value. cbn.
    pose proof (is_digit_val a Ha). pose proof (is_digit_val b Hb).
    apply orb_true_iff in Hr as [Hr | Hr].
    + apply Z.leb_le in Hr. lia.
    + apply andb_true_iff in Hr as [Hr1 Hr2]. apply Z.eqb_eq in Hr1. apply Z.leb_le in Hr2. lia.
Qed.

Lemma minute_ok_value (s : string) :
  minute_ok s = true ->
  s <> "" /\ forallb is_digit (list_ascii_of_string s) = true /\ 0 <= digits_value s <= 59.
Proof.
  unfold minute_ok. destruct s as [| a [| b [| c r]]]; try discriminate.
  - intros Ha. split; [discriminate |]. cbn. rewrite Ha. split; [reflexivity |].
    unfold digits_value. cbn. pose proof (is_digit_val a Ha). lia.
  - intros H. apply andb_true_iff in H as [H Hr]. apply andb_true_iff in H as [Ha Hb].
    split; [discriminate |]. cbn. rewrite Ha, Hb. split; [reflexivity |].
    unfold digits_value. cbn.
    pose proof (is_digit_val a Ha). pose proof (is_digit_val b Hb).
    apply Z.leb_le in Hr. lia.
Qed.

(** X16: a digest time that [deadlines configure] accepts is read back by
    the digest loop ([map(int, hhmm.split(":"))]) as an hour in 0..23 and a
    minute in 0..59, provided [int] parses a non-empty string of ASCII
    digits as its decimal value; so the stored time is never replaced by
    the 09:00 fallback and is a time the local clock reaches every day. *)
Theorem configured_time_in_range (env : digest_env) (t : string) :
  (forall s, s <> "" -> forallb is_digit (list_ascii_of_string s) = true ->
     py_int env s = Some (digits_value s)) ->
  strptime_hhmm_ok t = true ->
  exists h m, split_on ":" t = [h; m] /\
    digest_time env t = (digits_value h, digits_value m) /\
    0 <= digits_value h <= 23 /\ 0 <= digits_value m <= 59.
Proof.
  intros Hint. unfold strptime_hhmm_ok, digest_time.
  destruct (split_on ":" t) as [| h [| m [| x r]]]; try discriminate.
  intros H. apply andb_true_iff in H as [Hh Hm].
  destruct (hour_ok_value h Hh) as (Hh1 & Hh2 & Hh3).
  destruct (minute_ok_value m Hm) as (Hm1 & Hm2 & Hm3).
  exists h, m. rewrite (Hint h Hh1 Hh2), (Hint m Hm1 Hm2). auto.
Qed.

Lemma configured_time_in_range_witness :
  exists h m, split_on ":" "23:59" = [h; m] /\
    digest_time utc_env "23:59" = (digits_value h, digits_value m) /\
    0 <= digits_value h <= 23 /\ 0 <= digits_value m <= 59.
Proof.
  apply configured_time_in_range; [| reflexivity].
  intros s Hs Hd. cbn [py_int utc_env].
  destruct (String.eqb_spec s ""); [contradiction |]. cbn [negb andb].
  rewrite Hd. reflexivity.
Defined.

(** ** A single duration token *)

Lemma is_unit_class (u : ascii) :
  is_unit u = true -> is_digit u = false /\ is_ws u = false /\ Ascii.eqb u "," = false.
Proof.
  destruct u as [[] [] [] [] [] [] [] []]; vm_compute; intros H;
    (discriminate H || (split; [reflexivity | split; reflexivity])).
Qed.

Lemma is_digit_class (c : ascii) :
  is_digit c = true -> is_ws c = false /\ Ascii.eqb c "," = false.
Proof.
  unfold is_digit, is_ws. cbv zeta. intros H.
  apply andb_true_iff in H as [H1 H2]. apply Nat.leb_le in H1, H2. split.
  - apply orb_false_iff. split; apply andb_false_iff; right; apply Nat.leb_gt; lia.
  - destruct (Ascii.eqb_spec c ","); [| reflexivity].
    subst c. change (nat_of_ascii ",") with 44%nat in H1. lia.
Qed.

Lemma split_on_no_sep (s : string) :
  forallb (fun c => negb (Ascii.eqb c ",")) (list_ascii_of_string s) = true ->
  split_on "," s = [s].
Proof.
  induction s as [| c s IH]; cbn [split_on list_ascii_of_string forallb]; [reflexivity |].
  intros H. apply andb_true_iff in H as [Hc Hs].
  destruct (Ascii.eqb c ","); [discriminate |]. rewrite (IH Hs). reflexivity.
Qed.

Lemma rev_app_append (a b c : string) :
  String.rev_app (String.append a b) c = String.rev_app b (String.rev_app a c).
Proof.
  revert c. induction a as [| x a IH]; intros c; [reflexivity |]. cbn. apply IH.
Qed.

Lemma rev_app_rev_app (a b c : string) :
  String.rev_app (String.rev_app a b) c = String.rev_app b (String.append a c).
Proof.
  revert b. induction a as [| x a IH]; intros b; [reflexivity |]. cbn. rewrite IH. reflexivity.
Qed.

Lemma take_digits_append (ds : string) (u : ascii) :
  forallb is_digit (list_ascii_of_string ds) = true -> is_digit u = false ->
  take_digits (String.append ds (String u EmptyString)) = (ds, String u EmptyString).
Proof.
  intros Hd Hu. induction ds as [| c ds IH]; simpl.
  - rewrite Hu. reflexivity.
  - cbn in Hd. apply andb_true_iff in Hd as [Hc Hd]. rewrite Hc, (IH Hd). reflexivity.
Qed.

Lemma forallb_append (f : ascii -> bool) (a b : string) :
  forallb f (list_ascii_of_string (String.append a b)) =
    forallb f (list_ascii_of_string a) && forallb f (list_ascii_of_string b).
Proof.
  induction a as [| c a IH]; simpl; [reflexivity |]. rewrite IH, andb_assoc. reflexivity.
Qed.

Lemma digits_no_comma (ds : string) :
  forallb is_digit (list_ascii_of_string ds) = true ->
  forallb (fun c => negb (Ascii.eqb c ",")) (list_ascii_of_string ds) = true.
Proof.
  induction ds as [| c ds IH]; simpl; [reflexivity |]. intros H.
  apply andb_true_iff in H as [Hc H]. destruct (is_digit_class c Hc) as [_ Hcc].
  rewrite Hcc, (IH H). reflexivity.
Qed.

(** X19: a token made of decimal digits followed by a unit letter (s, m,
    h, d or w, in either case) is parsed by [parse_offset_str] to the one
    offset "number times the unit's seconds". *)
Theorem single_token_value (ds : string) (u : ascii) :
  ds <> EmptyString -> forallb is_digit (list_ascii_of_string ds) = true -> is_unit u = true ->
  parse_offset_str (String.append ds (String u EmptyString)) =
    Ok [digits_value ds * unit_mult (lower u)].
Proof.
  intros Hne Hd Hu. destruct (is_unit_class u Hu) as (Hud & Huw & Huc).
  destruct ds as [| c ds']; [contradiction |].
  set (t := String.append (String c ds') (String u EmptyString)).
  pose proof Hd as Hd'. cbn [list_ascii_of_string forallb] in Hd'.
  apply andb_true_iff in Hd' as [Hc Hds]. destruct (is_digit_class c Hc) as [Hcw Hcc].
  assert (Hsplit : split_on "," t = [t]).
  { apply split_on_no_sep. subst t. rewrite forallb_append. apply andb_true_iff. split.
    - apply digits_no_comma, Hd.
    - cbn. rewrite Huc. reflexivity. }
  assert (Hl : lstrip t = t) by (subst t; simpl; rewrite Hcw; reflexivity).
  assert (Hstrip : strip t = t).
  { unfold strip. rewrite Hl. unfold String.rev. subst t.
    rewrite rev_app_append. cbn [String.rev_app]. cbn [lstrip]. rewrite Huw.
    cbn [String.rev_app]. rewrite rev_app_rev_app. reflexivity. }
  unfold parse_offset_str. rewrite Hsplit. cbn [parse_parts]. rewrite Hstrip.
  assert (Hm : duration_match t = Some (String c ds', u)).
  { unfold duration_match. rewrite Hl. subst t. rewrite (take_digits_append _ _ Hd Hud).
    cbn [lstrip]. rewrite Huw, Hu. reflexivity. }
  subst t. cbn [String.append]. cbn [String.append] in Hm. rewrite Hm. reflexivity.
Qed.

Lemma single_token_value_witness :
  parse_offset_str "12H" = Ok [43200].
Proof.
  exact (single_token_value "12" "H" ltac:(discriminate) eq_refl eq_refl).
Defined.

(** ** Reminders whose window has passed *)

Lemma poll_keeps_ts (d : Z -> reminder -> project -> bool) (now : Z) (st : store) (rid T : Z) :
  (forall r, reminders st !! rid = Some r -> r_ts r = T) ->
  forall r, reminders (fst (reminder_loop d now st)) !! rid = Some r -> r_ts r = T.
Proof.
  intros HT r. rewrite reminder_loop_eq. cbn [fst set_reminders reminders].
  rewrite process_rows_lookup. case_bool_decide.
  - destruct (reminders st !! rid) as [r0 |] eqn:Hr0; cbn; intros Hr; [| discriminate].
    injection Hr as <-. exact (HT r0 eq_refl).
  - exact (HT r).
Qed.

Lemma poll_attempt_window (d : Z -> reminder -> project -> bool) (now : Z) (st : store) (rid : Z) :
  rid ∈ omap attempted (snd (reminder_loop d now st)) ->
  exists r, reminders st !! rid = Some r /\ now - 60 <= r_ts r.
Proof.
  rewrite reminder_loop_eq. cbn [snd].
  rewrite process_rows_log, app_nil_l, omap_attempted_events.
  intros Hin. apply list_elem_of_fmap in Hin as [[[rid' r] p] [-> Hrow]].
  destruct (due_rows_spec _ _ _ _ _ Hrow) as (Hr & _ & Hw & _). exists r. split; [exact Hr | lia].
Qed.

(** X20: a reminder row whose remind_ts is more than 60 seconds before the
    clock of every poll in a run is never attempted in that run: a reminder
    whose window passed while no poll ran (e.g. the bot was offline) is
    never delivered late. *)
Theorem missed_reminder_never_sent (cycles : list (Z * (Z -> reminder -> project -> bool)))
    (st : store) (rid T : Z) :
  (forall r, reminders st !! rid = Some r -> r_ts r = T) ->
  Forall (fun c => T < fst c - 60) cycles ->
  rid ∉ omap attempted (snd (run_polls cycles st)).
Proof.
  revert st. induction cycles as [| [now d] cycles IH]; intros st HT Hc; [cbn; set_solver |].
  apply Forall_cons in Hc as [Hnow Hc]. cbn [fst] in Hnow. cbn [run_polls].
  pose proof (poll_keeps_ts d now st rid T HT) as HT1.
  pose proof (poll_attempt_window d now st rid) as Hw.
  destruct (reminder_loop d now st) as [st1 log1] eqn:E1. cbn [fst snd] in HT1, Hw.
  specialize (IH st1 HT1 Hc).
  destruct (run_polls cycles st1) as [st2 log2]. cbn [snd] in IH |- *.
  rewrite omap_app. intros Hin. apply elem_of_app in Hin as [Hin | Hin]; [| exact (IH Hin)].
  destruct (Hw Hin) as [r [Hr Hts]]. specialize (HT r Hr). lia.
Qed.

Lemma missed_reminder_never_sent_witness :
  1 ∉ omap attempted (snd (run_polls [(3700, fun _ _ _ => true)]
        (snd (project_create NoFault empty_store (Some 1) "p" 7200 0 0 "UTC" 2 3 4 None None)))).
Proof.
  apply (missed_reminder_never_sent _ _ 1 3600).
  - intros r Hr. vm_compute in Hr. injection Hr as <-. reflexivity.
  - constructor; [cbn; lia | constructor].
Defined.
